(** * CORD-19 Data Explorer: ingestion, year filter and word tabulation

    A shallow embedding of [app/app.py]: the loader [load_data], the
    year-range selection [df_filtered] and the word ranking [common_words].

    The program is a sequence of pandas calls, so the embedding has three
    layers:
    - Python text: [str_split], [str_lower], [str_join] on ASCII strings;
    - a small pandas: dynamically typed cells, rows keyed by column label,
      frames with a column list and labelled rows, and the handful of
      Series/DataFrame operations the program calls, each raising what
      pandas raises;
    - the program itself, written in the error monad, line by line.

    Four library routines are kept abstract (Section variables):
    - the tokenizer behind [pd.read_csv]: file access, decoding, quoting,
      and which lines the reader keeps and how it aligns their fields with
      the header ([on_bad_lines='skip'] drops over-long lines; an over-long
      first line makes its first field an index column instead);
    - the date parser behind [pd.to_datetime];
    - what [pd.to_datetime] and the [.dt] accessor raise on a column of
      dates of which no datetime column can be made (dates that carry
      different UTC offsets);
    - the dtype inference of [read_csv], to which the program passes no
      [dtype]: whether a column is left as text or read as numbers or
      booleans.
    A frame keeps, in every column, the text each cell was read from; the
    cells of a column read as numbers are numbers all the same, and the
    one line of the loader that depends on it, line 23, asks the inference
    about the column. *)

From Stdlib Require Import ZArith String Ascii List Lia Permutation.
From stdpp Require Import base option list strings gmap sorting.

#[local] Set Warnings "-clear-no-such-hyp".

Local Open Scope Z_scope.
Local Open Scope list_scope.

(** ** Python text *)

(** [str.isspace] on the ASCII range: TAB..CR, FS..US and the blank. *)
Definition isspace (c : ascii) : bool :=
  let n := nat_of_ascii c in
  ((9 <=? n)%nat && (n <=? 13)%nat) || ((28 <=? n)%nat && (n <=? 32)%nat).

Definition lower_char (c : ascii) : ascii :=
  let n := nat_of_ascii c in
  if ((65 <=? n)%nat && (n <=? 90)%nat)%bool then ascii_of_nat (n + 32) else c.

(** [s.lower()] *)
Fixpoint str_lower (s : string) : string :=
  match s with
  | EmptyString => EmptyString
  | String c s' => String (lower_char c) (str_lower s')
  end.

(** [s.split()]: the scan of CPython's whitespace split; [cur] is the word
    being read (empty while blanks are skipped). *)
Fixpoint split_go (cur : string) (s : string) : list string :=
  match s with
  | EmptyString => match cur with EmptyString => [] | _ => [cur] end
  | String c s' =>
      if isspace c
      then match cur with
           | EmptyString => split_go EmptyString s'
           | _ => cur :: split_go EmptyString s'
           end
      else split_go (cur +:+ String c EmptyString) s'
  end.

Definition str_split (s : string) : list string := split_go EmptyString s.

(** [sep.join(l)] *)
Definition str_join (sep : string) (l : list string) : string :=
  String.concat sep l.

(** ** Exceptions and the error monad *)

(** What [read_csv] raises when the file cannot be opened or read. *)
Inductive io_error :=
  | FileNotFoundError
  | PermissionError
  | UnicodeDecodeError
  | EmptyDataError.

Inductive exn :=
  | LoadFailure (e : io_error)
  | KeyError (missing : list string)
  | TypeError
  | AttributeError
  | ValueError.

Inductive result (A : Type) :=
  | Ok (a : A)
  | Raise (e : exn).
Arguments Ok {A} a.
Arguments Raise {A} e.

#[global] Instance result_ret : MRet result := fun A a => Ok a.
#[global] Instance result_bind : MBind result := fun A B f m =>
  match m with Ok a => f a | Raise e => Raise e end.

Fixpoint traverse {A B} (f : A -> result B) (l : list A) : result (list B) :=
  match l with
  | [] => Ok []
  | x :: l' => y ← f x; ys ← traverse f l'; Ok (y :: ys)
  end.

(** ** Cells, rows and frames *)

Record Timestamp := mkTimestamp {
  ts_year : Z; ts_month : Z; ts_day : Z; ts_nanos : Z }.

Inductive value :=
  | NaN
  | NaT
  | Str (s : string)
  | Int (z : Z)
  | Datetime (t : Timestamp).

#[global] Instance Timestamp_eq_dec : EqDecision Timestamp.
Proof. solve_decision. Defined.
#[global] Instance value_eq_dec : EqDecision value.
Proof. solve_decision. Defined.

Definition isna (v : value) : bool :=
  match v with NaN | NaT => true | _ => false end.

Abbreviation Series := (list value).

(** A row is its index label and its cells by column label. *)
Definition Row : Type := nat * gmap string value.

#[global] Instance Row_eq_dec : EqDecision Row.
Proof. unfold Row. apply _. Defined.

Record DataFrame := mkFrame {
  columns : list string;
  rows : list Row }.

(** The cell of a row under a column; a field the line did not have reads
    as missing (pandas pads short lines). *)
Definition cell (r : Row) (c : string) : value := default NaN (r.2 !! c).

(** [df[c]] *)
Definition getitem (df : DataFrame) (c : string) : result Series :=
  if decide (c ∈ columns df) then Ok ((fun r => cell r c) <$> rows df)
  else Raise (KeyError [c]).

(** [df[c] = s], for a Series [s] on the frame's own index. *)
Definition setitem (df : DataFrame) (c : string) (s : Series) : DataFrame :=
  {| columns := if decide (c ∈ columns df) then columns df else columns df ++ [c];
     rows := zip_with (fun r v => (r.1, <[c := v]> r.2)) (rows df) s |}.

(** [s.fillna(x)] *)
Definition fillna (x : value) (s : Series) : Series :=
  (fun v => if isna v then x else v) <$> s.

(** [s.dropna()] *)
Definition dropna_series (s : Series) : Series :=
  filter (fun v => isna v = false) s.

(** [s.dt.year]: the accessor demands datetime-like values; a missing
    datetime gives a missing year. *)
Definition dt_year (s : Series) : result Series :=
  traverse (fun v => match v with
                     | Datetime t => Ok (Int (ts_year t))
                     | NaT => Ok NaN
                     | _ => Raise AttributeError
                     end) s.

(** [df.dropna(subset=cs)] *)
Definition dropna (subset : list string) (df : DataFrame) : result DataFrame :=
  match filter (fun c => c ∉ columns df) subset with
  | [] => Ok {| columns := columns df;
                rows := filter (fun r => forallb (fun c => negb (isna (cell r c))) subset = true)
                               (rows df) |}
  | missing => Raise (KeyError missing)
  end.

(** [s >= k] and [s <= k] for an integer [k]: missing compares false, text
    and datetimes are not comparable with an integer. *)
Definition compare_with (op : Z -> Z -> bool) (k : Z) (s : Series) : result (list bool) :=
  traverse (fun v => match v with
                     | Int z => Ok (op z k)
                     | NaN => Ok false
                     | _ => Raise TypeError
                     end) s.

(** [m1 & m2] *)
Definition mask_and (m1 m2 : list bool) : list bool := zip_with andb m1 m2.

(** [df[mask]] *)
Definition bool_index (df : DataFrame) (mask : list bool) : DataFrame :=
  {| columns := columns df;
     rows := (filter (fun rm : Row * bool => rm.2 = true) (zip (rows df) mask)).*1 |}.

(** ** Counting tokens: [collections.Counter] *)

(** A [Counter] is a dict, which keeps its keys in insertion order: an
    association list in which a known key is bumped in place and a new key
    goes to the end. *)
Abbreviation Counter_t := (list (string * nat)).

Fixpoint count_elem (w : string) (c : Counter_t) : Counter_t :=
  match c with
  | [] => [(w, 1%nat)]
  | (k, v) :: c' => if decide (k = w) then (k, S v) :: c' else (k, v) :: count_elem w c'
  end.

(** [Counter(words)] *)
Definition Counter (words : list string) : Counter_t :=
  fold_left (fun c w => count_elem w c) words [].

(** [sorted(items, key=itemgetter(1), reverse=True)]: a stable sort, equal
    counts keep the order they had.  An entry is put in front of the first
    one whose count is not larger than its own. *)
Fixpoint insert_desc (x : string * nat) (l : Counter_t) : Counter_t :=
  match l with
  | [] => [x]
  | y :: l' => if (x.2 <? y.2)%nat then y :: insert_desc x l' else x :: y :: l'
  end.

Definition sorted_desc (l : Counter_t) : Counter_t := foldr insert_desc [] l.

(** [c.most_common(n)], that is [heapq.nlargest(n, c.items(), key=itemgetter(1))],
    which the library defines as the first [n] of the reverse stable sort. *)
Definition most_common (n : nat) (c : Counter_t) : Counter_t :=
  take n (sorted_desc c).

(** ** The program *)

Section Program.

(** The tokenizer of [pd.read_csv(path, engine='python', on_bad_lines='skip',
    encoding='utf-8')]: the header and the fields of every line it keeps, as
    it aligns them with the header, or the error raised when the file cannot
    be opened, decoded or has no header.  Which lines are kept is the
    reader's own business and is not modelled. *)
Variable read_table : string -> io_error + (list string * list (list string)).

(** The parser of [pd.to_datetime]: given the column (from which pandas
    guesses the format) and one non-missing cell, the timestamp it reads,
    if any. *)
Variable parse_datetime : Series -> value -> option Timestamp.

(** What lines 20-21 raise on a column of which [pd.to_datetime] makes no
    datetime column: dates that carry different UTC offsets.  pandas 2
    returns such dates as objects, on which the [.dt] accessor of line 21
    raises [AttributeError]; later versions raise [ValueError] from
    [to_datetime] itself.  [None] on every other column: what does not
    parse is then coerced to [NaT]. *)
Variable dates_error : Series -> option exn.

(** The dtype inference of [read_csv] (lines 13-18 pass no [dtype]):
    whether a column, given by the cells read, is left as text.  A column
    in which every cell present reads as a number is read as numbers, and
    one in which each is [True] or [False] as booleans; a column with no
    cell present is a column of (missing) numbers. *)
Variable text_dtype : Series -> bool.

(** Text that [read_csv] reads as missing (its default [na_values]). *)
Definition STR_NA_VALUES : list string :=
  [ ""; "#N/A"; "#N/A N/A"; "#NA"; "-1.#IND"; "-1.#QNAN"; "-NaN"; "-nan";
    "1.#IND"; "1.#QNAN"; "<NA>"; "N/A"; "NA"; "NULL"; "NaN"; "None";
    "n/a"; "nan"; "null" ]%string.

(** A field as a cell: missing, or the text read.  The text is kept also
    in a column that is read as numbers or booleans ([text_dtype] tells):
    what such a number is worth is nowhere used by the loader. *)
Definition na_convert (field : string) : value :=
  if decide (field ∈ STR_NA_VALUES) then NaN else Str field.

(** The row of one kept line, every cell as the text read or missing; rows
    are labelled by their position among the kept lines. *)
Definition row_of (header : list string) (i : nat) (fields : list string) : Row :=
  (i, list_to_map (zip header (na_convert <$> fields))).

Definition read_csv (file_path : string) : result DataFrame :=
  match read_table file_path with
  | inl e => Raise (LoadFailure e)
  | inr (header, lines) => Ok {| columns := header; rows := imap (row_of header) lines |}
  end.

(** [pd.to_datetime(s, errors='coerce')]: what does not parse becomes [NaT]. *)
Definition to_datetime (s : Series) : Series :=
  (fun v => if isna v then NaT
            else match parse_datetime s v with
                 | Some t => Datetime t
                 | None => NaT
                 end) <$> s.

(** [lambda x: len(x.split())] *)
Definition word_count (x : value) : result value :=
  match x with
  | Str s => Ok (Int (Z.of_nat (length (str_split s))))
  | _ => Raise AttributeError
  end.

(** Lines 20-21 on a column of which no datetime column is made. *)
Definition datetimelike (s : Series) : result unit :=
  match dates_error s with
  | Some e => Raise e
  | None => Ok ()
  end.

(** [lambda x: len(x.split())] on a cell of a column read as numbers or
    booleans, after [fillna("")]: a cell that was missing holds [""], every
    other cell holds a number, which has no [split]. *)
Definition word_count_number (x : value) : result value :=
  if isna x then word_count (Str "") else Raise AttributeError.

(** [s.fillna("").apply(lambda x: len(x.split()))], line 23. *)
Definition word_counts (s : Series) : result Series :=
  if text_dtype s then traverse word_count (fillna (Str "") s)
  else traverse word_count_number s.

(** Lines 20-23 of [load_data]: the parsed date, the year and the word
    count columns. *)
Definition derive_columns (df : DataFrame) : result DataFrame :=
  s ← getitem df "publish_time";
  _ ← datetimelike s;
  let df := setitem df "publish_time" (to_datetime s) in
  s ← getitem df "publish_time";
  y ← dt_year s;
  let df := setitem df "year" y in
  s ← getitem df "abstract";
  n ← word_counts s;
  Ok (setitem df "abstract_word_count" n).

Definition load_data (file_path : string) : result DataFrame :=
  df ← read_csv file_path;
  df ← derive_columns df;
  dropna ["title"; "publish_time"]%string df.

(** Line 64: [df[(df['year'] >= year_range[0]) & (df['year'] <= year_range[1])]] *)
Definition df_filtered (df : DataFrame) (year_range : Z * Z) : result DataFrame :=
  y ← getitem df "year";
  m1 ← compare_with Z.geb year_range.1 y;
  y ← getitem df "year";
  m2 ← compare_with Z.leb year_range.2 y;
  Ok (bool_index df (mask_and m1 m2)).

(** [" ".join(l)] raises on an item that is not text. *)
Definition tolist_str (s : Series) : result (list string) :=
  traverse (fun v => match v with Str x => Ok x | _ => Raise TypeError end) s.

(** [" ".join(df[field].dropna().tolist()).lower().split()] *)
Definition words_of (df : DataFrame) (field : string) : result (list string) :=
  s ← getitem df field;
  l ← tolist_str (dropna_series s);
  Ok (str_split (str_lower (str_join " " l))).

(** Line 122 *)
Definition all_words (df_filtered : DataFrame) : result (list string) :=
  words_of df_filtered "title".

(** Line 123 *)
Definition common_words (df_filtered : DataFrame) : result Counter_t :=
  all_words ← all_words df_filtered;
  Ok (most_common 20 (Counter all_words)).

(** Lines 122-123 for any text column and any length of the ranking. *)
Definition top_words (df : DataFrame) (field : string) (n : nat) : result Counter_t :=
  ws ← words_of df field;
  Ok (most_common n (Counter ws)).

End Program.

(** ** A sample file system and date parser, to run the program *)

Definition digit (c : ascii) : option Z :=
  let n := nat_of_ascii c in
  if ((48 <=? n)%nat && (n <=? 57)%nat)%bool then Some (Z.of_nat (n - 48)) else None.

Fixpoint number (s : string) (acc : Z) : option Z :=
  match s with
  | EmptyString => Some acc
  | String c s' => d ← digit c; number s' (10 * acc + d)
  end.

(** Dates written [YYYY-MM-DD]. *)
Definition iso_date (col : Series) (v : value) : option Timestamp :=
  match v with
  | Str s =>
      if decide (String.length s = 10%nat ∧ String.get 4 s = Some "-"%char
                 ∧ String.get 7 s = Some "-"%char)
      then y ← number (substring 0 4 s) 0;
           m ← number (substring 5 2 s) 0;
           d ← number (substring 8 2 s) 0;
           if decide (1 ≤ m ≤ 12 ∧ 1 ≤ d ≤ 31) then Some (mkTimestamp y m d 0) else None
      else None
  | Datetime t => Some t
  | _ => None
  end.

(** The UTC offset of a date written [YYYY-MM-DDThh:mm:ss+hh:mm]. *)
Definition utc_offset (v : value) : option string :=
  match v with
  | Str s => if decide (String.length s = 25%nat) then Some (substring 19 6 s) else None
  | _ => None
  end.

(** A sample of what lines 20-21 raise: [AttributeError], as in pandas 2,
    when two dates of the column carry different offsets. *)
Definition mixed_offsets (col : Series) : option exn :=
  match omap utc_offset col with
  | [] => None
  | o :: os => if decide (Forall (fun o' => o' = o) os) then None else Some AttributeError
  end.

(** The syntax of a number, after the reader of pandas: blanks around
    it, a sign, digits with an optional point and an optional exponent, or
    an infinity. *)
Fixpoint span_digits (s : string) : nat * string :=
  match s with
  | EmptyString => (0%nat, EmptyString)
  | String c s' =>
      match digit c with
      | Some _ => let '(n, r) := span_digits s' in (S n, r)
      | None => (0%nat, s)
      end
  end.

Fixpoint skip_blanks (s : string) : string :=
  match s with
  | String c s' => if isspace c then skip_blanks s' else s
  | EmptyString => EmptyString
  end.

Definition drop_sign (s : string) : string :=
  match s with
  | String c s' => if bool_decide (c = "+"%char ∨ c = "-"%char) then s' else s
  | EmptyString => EmptyString
  end.

Definition exponent_syntax (s : string) : bool :=
  match s with
  | String c s' =>
      if bool_decide (c = "e"%char ∨ c = "E"%char)
      then let '(n, r) := span_digits (drop_sign s') in
           (0 <? n)%nat && bool_decide (skip_blanks r = EmptyString)
      else bool_decide (skip_blanks s = EmptyString)
  | EmptyString => true
  end.

Definition number_syntax (s : string) : bool :=
  let s := drop_sign (skip_blanks s) in
  if bool_decide (str_lower s ∈ ["inf"; "infinity"]%string) then true
  else
    let '(n1, r) := span_digits s in
    let '(n2, r) := match r with
                    | String "."%char r' => span_digits r'
                    | _ => (0%nat, r)
                    end in
    (0 <? n1 + n2)%nat && exponent_syntax r.

(** The texts [read_csv] reads as booleans (its default [true_values] and
    [false_values]). *)
Definition BOOL_VALUES : list string :=
  ["True"; "TRUE"; "true"; "False"; "FALSE"; "false"]%string.

(** The texts of the cells present in a column. *)
Definition present_texts (col : Series) : list string :=
  omap (fun v => match v with Str s => Some s | _ => None end) col.

(** A sample of the dtype inference: a column is read as numbers when
    every cell present has the syntax of a number, as booleans when every
    cell present is a boolean, and is left as text otherwise. *)
Definition sample_dtype (col : Series) : bool :=
  negb (forallb number_syntax (present_texts col)) &&
  negb (forallb (fun s => bool_decide (s ∈ BOOL_VALUES)) (present_texts col)).

Definition sample_header : list string :=
  ["title"; "authors"; "journal"; "abstract"; "publish_time"]%string.

Definition sample_lines : list (list string) :=
  [ ["Covid study"; "A B"; "Lancet"; "a short  abstract"; "2019-12-30"];
    ["covid Vaccine"; "C D"; "BMJ"; ""; "2020-03-01"];
    [""; "E F"; "BMJ"; "no title here"; "2020-04-01"];
    ["Lost date"; "G H"; "Nature"; "text"; "last spring"];
    ["Vaccine trial"; "I J"; ""; " one two three "; "2021-01-15"] ]%string.

Definition sample_files (path : string) : io_error + (list string * list (list string)) :=
  if decide (path = "../data/metadata_sample.csv"%string) then inr (sample_header, sample_lines)
  else if decide (path = "no_abstract.csv"%string)
       then inr (["title"; "publish_time"]%string, [["Covid study"; "2020-01-01"]]%string)
  else if decide (path = "no_title.csv"%string)
       then inr (["abstract"; "publish_time"]%string, [["some text"; "2020-01-01"]]%string)
  else if decide (path = "no_dates.csv"%string)
       then inr (["title"; "abstract"]%string, [["Covid study"; "some text"]]%string)
  else if decide (path = "four_years.csv"%string)
       then inr (["title"; "abstract"; "publish_time"]%string,
                 [ ["a"; "x"; "2019-05-01"]; ["b"; "x"; "2020-01-01"];
                   ["c"; "x"; "2020-12-31"]; ["d"; "x"; "2021-07-04"] ]%string)
  else if decide (path = "header_only.csv"%string) then inr (sample_header, [])
  else inl FileNotFoundError.

(** ** Reference definitions, in the words of the specification *)

(** A missing text reads as the empty string. *)
Definition text_of (v : value) : string :=
  match v with Str s => s | _ => EmptyString end.

(** The number of whitespace-separated tokens of a text: the number of
    places where a word starts. *)
Fixpoint token_count (after_space : bool) (s : string) : nat :=
  match s with
  | EmptyString => 0
  | String c s' =>
      if isspace c then token_count true s'
      else ((if after_space then 1 else 0) + token_count false s')%nat
  end.

(** The distinct tokens of a stream, in the order of their first appearance. *)
Fixpoint distinct (l : list string) : list string :=
  match l with
  | [] => []
  | x :: l' => x :: filter (fun y => y ≠ x) (distinct l')
  end.

Definition occurrences (t : string) (l : list string) : nat :=
  length (filter (fun w => w = t) l).

(** Position of the first appearance of a token (the length of the stream
    when it does not appear). *)
Fixpoint first_index (t : string) (l : list string) : nat :=
  match l with
  | [] => 0
  | x :: l' => if decide (x = t) then 0 else S (first_index t l')
  end.

(** The token stream of a field: the field of every record, null as the
    empty string, joined by single blanks, lower-cased, split on whitespace. *)
Definition tokens_spec (df : DataFrame) (field : string) : list string :=
  str_split (str_lower (str_join " " ((fun r => text_of (cell r field)) <$> rows df))).

(** One entry per distinct token, with its number of occurrences. *)
Definition counts_spec (toks : list string) : Counter_t :=
  (fun t => (t, occurrences t toks)) <$> distinct toks.

Definition total_count (c : Counter_t) : nat := sum_list (c.*2).

(** Ranking order: a strictly larger count first, and for equal counts
    the token that appeared first. *)
Definition ranks_before (toks : list string) (x y : string * nat) : Prop :=
  (y.2 < x.2)%nat ∨ (x.2 = y.2 ∧ (first_index x.1 toks < first_index y.1 toks)%nat).

(** The year of a record lies in [a, b]. *)
Definition year_between (a b : Z) (r : Row) : bool :=
  match cell r "year" with
  | Int y => (a <=? y) && (y <=? b)
  | _ => false
  end.

(** The years present in a table. *)
Definition years (df : DataFrame) : list Z :=
  omap (fun r => match cell r "year" with Int y => Some y | _ => None end) (rows df).

(** The interval [a, b] lies entirely below or entirely above the span of
    the years present. *)
Definition outside_span (df : DataFrame) (a b : Z) : Prop :=
  Forall (fun y => b < y) (years df) ∨ Forall (fun y => y < a) (years df).

Definition is_text (v : value) : bool :=
  match v with NaN | Str _ => true | _ => false end.

Definition is_numeric (v : value) : bool :=
  match v with NaN | Int _ => true | _ => false end.

(** A column of texts, some possibly missing. *)
Definition text_column (df : DataFrame) (c : string) : Prop :=
  c ∈ columns df ∧ Forall (fun r => is_text (cell r c) = true) (rows df).

(** A column of integers, some possibly missing. *)
Definition numeric_column (df : DataFrame) (c : string) : Prop :=
  c ∈ columns df ∧ Forall (fun r => is_numeric (cell r c) = true) (rows df).

#[global] Instance outside_span_dec df a b : Decision (outside_span df a b).
Proof. unfold outside_span. apply _. Defined.
#[global] Instance text_column_dec df c : Decision (text_column df c).
Proof. unfold text_column. apply _. Defined.
#[global] Instance numeric_column_dec df c : Decision (numeric_column df c).
Proof. unfold numeric_column. apply _. Defined.

Definition set_cell (c : string) (v : value) (r : Row) : Row := (r.1, <[c := v]> r.2).

Definition year_of (v : value) : value :=
  match v with Datetime t => Int (ts_year t) | _ => NaN end.

Definition add_column (c : string) (cs : list string) : list string :=
  if decide (c ∈ cs) then cs else cs ++ [c].

(** The text of a field of a line of the file, if the line has it. *)
Definition field_text (header fields : list string) (c : string) : option string :=
  (list_to_map (zip header fields) : gmap string string) !! c.

Section Reference.

Variable parse_datetime : Series -> value -> option Timestamp.

(** The parsed form of a date cell; [NaT] when missing or unparseable. *)
Definition parsed (col : Series) (v : value) : value :=
  if isna v then NaT
  else match parse_datetime col v with Some t => Datetime t | None => NaT end.

(** What lines 20-23 make of one row, [col] being the date column read. *)
Definition derive_row (col : Series) (r : Row) : Row :=
  let t := parsed col (cell r "publish_time") in
  set_cell "abstract_word_count"
    (Int (Z.of_nat (length (str_split (text_of (cell r "abstract"))))))
    (set_cell "year" (year_of t) (set_cell "publish_time" t r)).

(** The rows of lines 20-21: the parsed date and its year. *)
Definition date_row (col : Series) (r : Row) : Row :=
  let t := parsed col (cell r "publish_time") in
  set_cell "year" (year_of t) (set_cell "publish_time" t r).

(** A row keeps its essential fields. *)
Definition essential (r : Row) : bool :=
  negb (isna (cell r "title")) && negb (isna (cell r "publish_time")).

(** The frame read from the lines of a file, and its date column. *)
Definition frame_of (header : list string) (lines : list (list string)) : DataFrame :=
  mkFrame header (imap (row_of header) lines).

Definition date_column (df : DataFrame) : Series :=
  (fun r => cell r "publish_time") <$> rows df.

(** The abstracts of a frame. *)
Definition abstract_column (df : DataFrame) : Series :=
  (fun r => cell r "abstract") <$> rows df.

(** The abstracts of a frame are text wherever there is one: the column
    was left as text, or every cell of it is missing. *)
Definition text_abstracts (text_dtype : Series -> bool) (df : DataFrame) : bool :=
  text_dtype (abstract_column df) || forallb isna (abstract_column df).

(** The cleaned table of a frame: every row derived, the rows without
    their essential fields left out. *)
Definition cleaned (df : DataFrame) : DataFrame :=
  mkFrame (add_column "abstract_word_count" (add_column "year" (columns df)))
          (filter (fun r => essential r = true) (derive_row (date_column df) <$> rows df)).

End Reference.

(** The table loaded from the sample file, and a selection of it. *)
Definition sample_path : string := "../data/metadata_sample.csv".

Definition sample_table : DataFrame :=
  cleaned iso_date (frame_of sample_header sample_lines).

Definition sample_selection : DataFrame :=
  mkFrame (columns sample_table)
          (filter (fun r => year_between 2020 2021 r = true) (rows sample_table)).

(** ** The views of the script *)

(** [df.shape] *)
Definition shape (df : DataFrame) : nat * nat :=
  (length (rows df), length (columns df)).

(** [df.isnull().sum()]: the number of missing cells of every column. *)
Definition isnull_sum (df : DataFrame) : list (string * nat) :=
  (fun c => (c, length (filter (fun r => isna (cell r c) = true) (rows df)))) <$> columns df.

(** A cell of a numeric Series: an integer or missing. *)
Definition numeric_cell (v : value) : result (option Z) :=
  match v with
  | Int z => Ok (Some z)
  | NaN => Ok None
  | _ => Raise TypeError
  end.

(** [s.min()] and [s.max()] of a numeric Series: missing cells are skipped,
    and the result is missing when nothing is left. *)
Definition series_min (s : Series) : result (option Z) :=
  cells ← traverse numeric_cell s;
  Ok (match omap id cells with
      | [] => None
      | z :: zs => Some (foldr Z.min z zs)
      end).

Definition series_max (s : Series) : result (option Z) :=
  cells ← traverse numeric_cell s;
  Ok (match omap id cells with
      | [] => None
      | z :: zs => Some (foldr Z.max z zs)
      end).

(** [int(x)] of a minimum or maximum: a missing value is no integer. *)
Definition python_int (x : option Z) : exn + Z :=
  match x with
  | Some z => inr z
  | None => inl ValueError
  end.

(** Lines 59-60: [int(df['year'].min())] and [int(df['year'].max())], the
    bounds handed to the slider, evaluated in this order. *)
Definition slider_bounds (df : DataFrame) : exn + (Z * Z) :=
  match getitem df "year" ≫= series_min with
  | Raise e => inl e
  | Ok lo =>
      match python_int lo with
      | inl e => inl e
      | inr lo =>
          match getitem df "year" ≫= series_max with
          | Raise e => inl e
          | Ok hi =>
              match python_int hi with
              | inl e => inl e
              | inr hi => inr (lo, hi)
              end
          end
      end
  end.

(** Counting one more value in a table of counts kept in the order of
    first appearance. *)
Fixpoint count_value (v : value) (c : list (value * nat)) : list (value * nat) :=
  match c with
  | [] => [(v, 1%nat)]
  | (k, n) :: c' => if decide (k = v) then (k, S n) :: c' else (k, n) :: count_value v c'
  end.

(** The distinct values of a Series that are not missing, each with the
    number of its cells: the counting pass of [value_counts]. *)
Definition unique_counts (s : Series) : list (value * nat) :=
  fold_left (fun c v => count_value v c) (dropna_series s) [].

(** The order of index labels of one kind. *)
Definition ts_leb (t1 t2 : Timestamp) : bool :=
  match ts_year t1 ?= ts_year t2 with
  | Lt => true
  | Gt => false
  | Eq =>
      match ts_month t1 ?= ts_month t2 with
      | Lt => true
      | Gt => false
      | Eq =>
          match ts_day t1 ?= ts_day t2 with
          | Lt => true
          | Gt => false
          | Eq => ts_nanos t1 <=? ts_nanos t2
          end
      end
  end.

Definition key_leb (k1 k2 : value) : bool :=
  match k1, k2 with
  | Int a, Int b => a <=? b
  | Str a, Str b => String.leb a b
  | Datetime a, Datetime b => ts_leb a b
  | _, _ => false
  end.

Definition same_kind (k1 k2 : value) : bool :=
  match k1, k2 with
  | Int _, Int _ | Str _, Str _ | Datetime _, Datetime _ => true
  | _, _ => false
  end.

Fixpoint insert_key (x : value * nat) (l : list (value * nat)) : list (value * nat) :=
  match l with
  | [] => [x]
  | y :: l' => if key_leb x.1 y.1 then x :: y :: l' else y :: insert_key x l'
  end.

(** [s.sort_index()] of a table of counts: ascending labels; labels of
    different kinds do not compare.  (The labels of a [value_counts] are
    distinct and none is missing.) *)
Definition sort_index (c : list (value * nat)) : result (list (value * nat)) :=
  match c with
  | [] => Ok []
  | x :: _ =>
      if forallb (fun y => same_kind x.1 y.1) c
      then Ok (foldr insert_key [] c)
      else Raise TypeError
  end.

(** [df[cs]] for a list of column labels. *)
Definition getitem_columns (df : DataFrame) (cs : list string) : result DataFrame :=
  match filter (fun c => c ∉ columns df) cs with
  | [] => Ok {| columns := cs;
                rows := (fun r : Row =>
                           (r.1, filter (fun kv : string * value => kv.1 ∈ cs) r.2))
                        <$> rows df |}
  | missing => Raise (KeyError missing)
  end.

(** [df.head(n)] *)
Definition head (n : nat) (df : DataFrame) : DataFrame :=
  {| columns := columns df; rows := take n (rows df) |}.

(** Line 130: [df_filtered[['title','authors','journal','year']].head(20)] *)
Definition sample_data (df_filtered : DataFrame) : result DataFrame :=
  d ← getitem_columns df_filtered ["title"; "authors"; "journal"; "year"]%string;
  Ok (head 20 d).

(** Line 111: [" ".join(df_filtered['title'].dropna().tolist())] *)
Definition titles (df_filtered : DataFrame) : result string :=
  s ← getitem df_filtered "title";
  l ← tolist_str (dropna_series s);
  Ok (str_join " " l).

Section Views.

(** [Series.sort_values(ascending=False)] on a table of counts: the order
    it gives to equal counts is the library's own. *)
Variable sort_values : list (value * nat) -> list (value * nat).

(** [s.value_counts()] *)
Definition value_counts (s : Series) : list (value * nat) :=
  sort_values (unique_counts s).

(** Line 71: [df_filtered['year'].value_counts().sort_index()] *)
Definition year_counts (df_filtered : DataFrame) : result (list (value * nat)) :=
  s ← getitem df_filtered "year";
  sort_index (value_counts s).

(** Line 83: [df_filtered['journal'].value_counts().head(10)] *)
Definition top_journals (df_filtered : DataFrame) : result (list (value * nat)) :=
  s ← getitem df_filtered "journal";
  Ok (take 10 (value_counts s)).

(** Lines 95-104: the counts of the sources, or the notice written when
    the table has no [source_x] column. *)
Definition source_counts (df_filtered : DataFrame) : result (string + list (value * nat)) :=
  if decide ("source_x" ∈ columns df_filtered)
  then s ← getitem df_filtered "source_x";
       Ok (inr (take 10 (value_counts s)))
  else Ok (inl "Column 'source_x' not found in dataset."%string).

End Views.

(** A descending sort of counts, to run the views. *)
Fixpoint insert_count (x : value * nat) (l : list (value * nat)) : list (value * nat) :=
  match l with
  | [] => [x]
  | y :: l' => if (x.2 <? y.2)%nat then y :: insert_count x l' else x :: y :: l'
  end.

Definition sort_counts (l : list (value * nat)) : list (value * nat) :=
  foldr insert_count [] l.

(** More sample files. *)
Definition short_header : list string := ["title"; "abstract"; "publish_time"]%string.

Definition na_title_lines : list (list string) :=
  [ ["None"; "x"; "2020-01-01"]; ["Real title"; "y z"; "2020-02-02"];
    ["NA"; "x"; "2020-03-03"]; ["   "; "x"; "2021-03-03"] ]%string.

Definition no_journal_lines : list (list string) :=
  [ ["Covid study"; "x"; "2020-01-01"] ]%string.

(** Abstracts that are numbers, all of them or all but one. *)
Definition numeric_abstract_lines : list (list string) :=
  [ ["Covid study"; "12345"; "2020-01-01"]; ["Vaccine trial"; "678"; "2020-02-02"] ]%string.

Definition mostly_numeric_lines : list (list string) :=
  [ ["Covid study"; "12345"; "2020-01-01"]; ["Vaccine trial"; "678 cases"; "2020-02-02"] ]%string.

(** Dates in two time zones. *)
Definition two_offsets_lines : list (list string) :=
  [ ["Covid study"; "x"; "2020-10-25T02:00:00+02:00"];
    ["Vaccine trial"; "y"; "2020-10-25T04:00:00+01:00"] ]%string.

Definition more_files (path : string) : io_error + (list string * list (list string)) :=
  if decide (path = "na_title.csv"%string) then inr (short_header, na_title_lines)
  else if decide (path = "no_journal.csv"%string) then inr (short_header, no_journal_lines)
  else if decide (path = "numeric_abstract.csv"%string)
       then inr (short_header, numeric_abstract_lines)
  else if decide (path = "mostly_numeric.csv"%string)
       then inr (short_header, mostly_numeric_lines)
  else if decide (path = "numeric_no_title.csv"%string)
       then inr (["abstract"; "publish_time"]%string, [["12345"; "2020-01-01"]]%string)
  else if decide (path = "two_offsets.csv"%string)
       then inr (short_header, two_offsets_lines)
  else sample_files path.

Definition na_title_table : DataFrame :=
  cleaned iso_date (frame_of short_header na_title_lines).

Definition no_journal_table : DataFrame :=
  cleaned iso_date (frame_of short_header no_journal_lines).

Definition header_only_table : DataFrame :=
  cleaned iso_date (frame_of sample_header []).

(** ** Reference definitions for the views *)

(** A text without whitespace. *)
Fixpoint no_space (s : string) : bool :=
  match s with
  | EmptyString => true
  | String c s' => negb (isspace c) && no_space s'
  end.

(** A row as read has a title and a date that parses. *)
Definition usable_row (parse_datetime : Series -> value -> option Timestamp)
    (col : Series) (r : Row) : bool :=
  negb (isna (cell r "title")) && negb (isna (parsed parse_datetime col (cell r "publish_time"))).

(** The number of rows of a table with a given cell under a column. *)
Definition rows_with (c : string) (v : value) (df : DataFrame) : nat :=
  length (filter (fun r => cell r c = v) (rows df)).

(** The count a table of counts gives to a value (none: 0). *)
Fixpoint count_of (k : value) (c : list (value * nat)) : nat :=
  match c with
  | [] => 0
  | (k', n) :: c' => if decide (k' = k) then n else count_of k c'
  end.

(** A row has a year. *)
Definition has_year (r : Row) : bool :=
  match cell r "year" with Int _ => true | _ => false end.

(** The year of a row, if it has one. *)
Definition year_cell (r : Row) : option Z :=
  match cell r "year" with Int y => Some y | _ => None end.

(** A label that is an integer; labels in ascending order of year. *)
Definition int_key (e : value * nat) : Prop := ∃ a, e.1 = Int a.

Definition year_not_after (x y : value * nat) : Prop :=
  ∃ a b, x.1 = Int a ∧ y.1 = Int b ∧ a ≤ b.

(** Labels in strictly ascending order of year. *)
Definition year_before (x y : value * nat) : Prop :=
  ∃ a b, x.1 = Int a ∧ y.1 = Int b ∧ a < b.

(** ** The error monad and traversals *)

Lemma bind_Ok {A B} (m : result A) (f : A -> result B) b :
  (m ≫= f) = Ok b ↔ ∃ a, m = Ok a ∧ f a = Ok b.
Proof.
  destruct m as [a|e]; simpl; split.
  - intros H; exists a; auto.
  - intros (a' & Ha & Hf); congruence.
  - discriminate.
  - intros (a' & Ha & _); discriminate.
Qed.

Lemma traverse_fmap_Ok {A B C} (f : B -> result C) (g : A -> B) (h : A -> C) l :
  (∀ x, x ∈ l → f (g x) = Ok (h x)) → traverse f (g <$> l) = Ok (h <$> l).
Proof.
  induction l as [|x l IH]; intros Hf; [done|].
  rewrite !fmap_cons. cbn [traverse].
  rewrite Hf by left.
  rewrite IH; [done|]. intros y Hy; apply Hf; by right.
Qed.

Lemma traverse_Ok_Forall2 {A B} (f : A -> result B) l l' :
  traverse f l = Ok l' ↔ Forall2 (fun x y => f x = Ok y) l l'.
Proof.
  revert l'. induction l as [|x l IH]; intros l'; simpl.
  - split; [intros [= <-]; constructor | by inversion 1].
  - split.
    + intros (y & Hy & H)%bind_Ok. apply bind_Ok in H as (ys & Hys & [= <-]).
      constructor; [done | by apply IH].
    + inversion 1 as [|? y ? ys Hy Hys]; subst. rewrite Hy; simpl.
      apply IH in Hys. by rewrite Hys.
Qed.

Lemma zip_with_fmap_self {A B C} (F : A -> B -> C) (g : A -> B) l :
  zip_with F l (g <$> l) = (fun x => F x (g x)) <$> l.
Proof. induction l; simpl; [done | by f_equal]. Qed.

(** ** Python text: splitting, joining, lower-casing *)

Lemma app_char_nonempty cur c : cur +:+ String c EmptyString ≠ EmptyString.
Proof. by destruct cur. Qed.

Lemma split_go_app_space cur a c b :
  isspace c = true →
  split_go cur (a +:+ String c b) = split_go cur a ++ split_go EmptyString b.
Proof.
  intros Hc. revert cur. induction a as [|x a IH]; intros cur; simpl.
  - rewrite Hc. by destruct cur.
  - destruct (isspace x); [|apply IH].
    destruct cur; rewrite IH; done.
Qed.

Lemma str_split_app_space a b :
  str_split (a +:+ String " " b) = str_split a ++ str_split b.
Proof. by apply split_go_app_space. Qed.

Lemma str_lower_app a b : str_lower (a +:+ b) = str_lower a +:+ str_lower b.
Proof. induction a as [|x a IH]; simpl; [done | by rewrite IH]. Qed.

(** The tokens of a joined, lower-cased list of texts are the tokens of
    the texts, one text after the other. *)
Lemma tokens_join (l : list string) :
  str_split (str_lower (str_join " " l)) =
  concat ((fun s => str_split (str_lower s)) <$> l).
Proof.
  unfold str_join. induction l as [|x [|y l] IH]; [done| |].
  - simpl. by rewrite app_nil_r.
  - change (String.concat " " (x :: y :: l))
      with (x +:+ String " " (String.concat " " (y :: l))).
    rewrite str_lower_app.
    change (str_lower (String " " ?s)) with (String " " (str_lower s)).
    rewrite str_split_app_space, IH. done.
Qed.

Lemma split_go_length cur s :
  length (split_go cur s) =
  match cur with
  | EmptyString => token_count true s
  | _ => S (token_count false s)
  end.
Proof.
  revert cur. induction s as [|c s IH]; intros cur; simpl.
  - by destruct cur.
  - destruct (isspace c).
    + destruct cur; simpl; by rewrite IH.
    + rewrite IH. pose proof (app_char_nonempty cur c).
      destruct (cur +:+ String c EmptyString) eqn:E; [done|].
      by destruct cur.
Qed.

Lemma str_split_length s : length (str_split s) = token_count true s.
Proof. apply split_go_length. Qed.

(** ** Cells and columns *)

(** Closes [x ∉ [a; b; ...]] for distinct literals. *)
Ltac not_in_literals :=
  let H := fresh in
  intros H; repeat (apply elem_of_cons in H as [H|H]; [discriminate H|]);
  by apply elem_of_nil in H.

Lemma cell_set_cell_eq c v r : cell (set_cell c v r) c = v.
Proof. unfold cell, set_cell; simpl. by rewrite lookup_insert_eq. Qed.

Lemma cell_set_cell_ne c c' v r : c ≠ c' → cell (set_cell c v r) c' = cell r c'.
Proof. intros. unfold cell, set_cell; simpl. by rewrite lookup_insert_ne. Qed.

Lemma lookup_set_cell_ne c c' v r : c ≠ c' → (set_cell c v r).2 !! c' = r.2 !! c'.
Proof. intros. unfold set_cell; simpl. by rewrite lookup_insert_ne. Qed.

Lemma elem_of_add_column c c' cs : c' ∈ add_column c cs ↔ c' = c ∨ c' ∈ cs.
Proof.
  unfold add_column. case_decide as Hc.
  - split; [auto | intros [->|]; done].
  - rewrite elem_of_app, list_elem_of_singleton. tauto.
Qed.

Lemma getitem_Ok df c :
  c ∈ columns df → getitem df c = Ok ((fun r => cell r c) <$> rows df).
Proof. intros. unfold getitem. by rewrite decide_True. Qed.

Lemma getitem_KeyError df c :
  c ∉ columns df → getitem df c = Raise (KeyError [c]).
Proof. intros. unfold getitem. by rewrite decide_False. Qed.

(** Assigning a column computed row by row rewrites every row in place. *)
Lemma setitem_fmap df c (g : Row -> value) :
  setitem df c (g <$> rows df) =
  mkFrame (add_column c (columns df)) ((fun r => set_cell c (g r) r) <$> rows df).
Proof. unfold setitem. by rewrite zip_with_fmap_self. Qed.

Lemma field_text_fmap {B} (f : string -> B) header fields c :
  (list_to_map (zip header (f <$> fields)) : gmap string B) !! c =
  f <$> field_text header fields c.
Proof.
  unfold field_text. revert fields.
  induction header as [|h header IH]; intros [|x fields]; simpl;
    rewrite ?lookup_empty; try done.
  rewrite !lookup_insert. case_decide; [done | apply IH].
Qed.

Lemma text_column_alt df c :
  text_column df c ↔
  c ∈ columns df ∧ ∀ r, r ∈ rows df → cell r c = NaN ∨ ∃ s, cell r c = Str s.
Proof.
  unfold text_column. rewrite Forall_forall.
  split; intros [Hc H]; (split; [done|]); intros r Hr; specialize (H r Hr).
  - destruct (cell r c); try done; eauto.
  - by destruct H as [->|[s ->]].
Qed.

Lemma numeric_column_alt df c :
  numeric_column df c ↔
  c ∈ columns df ∧ ∀ r, r ∈ rows df → cell r c = NaN ∨ ∃ z, cell r c = Int z.
Proof.
  unfold numeric_column. rewrite Forall_forall.
  split; intros [Hc H]; (split; [done|]); intros r Hr; specialize (H r Hr).
  - destruct (cell r c); try done; eauto.
  - by destruct H as [->|[z ->]].
Qed.

(** ** The year-range selection *)

Lemma compare_with_Ok op k df c :
  (∀ r, r ∈ rows df → cell r c = NaN ∨ ∃ z, cell r c = Int z) →
  compare_with op k ((fun r => cell r c) <$> rows df) =
  Ok ((fun r => match cell r c with Int z => op z k | _ => false end) <$> rows df).
Proof.
  intros H. apply traverse_fmap_Ok. intros r Hr.
  destruct (H r Hr) as [->|[z ->]]; done.
Qed.

Lemma bool_index_fmap df (m : Row -> bool) :
  bool_index df (m <$> rows df) =
  mkFrame (columns df) (filter (fun r => m r = true) (rows df)).
Proof.
  unfold bool_index. f_equal.
  induction (rows df) as [|r l IH]; [done|].
  rewrite fmap_cons. cbn [zip zip_with]. rewrite !filter_cons. cbn [snd].
  destruct (decide (m r = true)); [rewrite fmap_cons|]; by rewrite IH.
Qed.

Lemma year_between_spec a b r :
  year_between a b r = true ↔ ∃ y, cell r "year" = Int y ∧ a ≤ y ≤ b.
Proof.
  unfold year_between. destruct (cell r "year") as [| | |y|]; split;
    try done; try (intros (y' & [=] & _); done).
  - intros H. exists y. split; [done|]. lia.
  - intros (y' & [= <-] & ?). lia.
Qed.

(** Line 64 on a table with a numeric [year] column: the rows whose year
    lies in the range, and no others. *)
Lemma df_filtered_Ok df a b :
  numeric_column df "year" →
  df_filtered df (a, b) =
  Ok (mkFrame (columns df) (filter (fun r => year_between a b r = true) (rows df))).
Proof.
  intros [Hc Hnum]%numeric_column_alt. unfold df_filtered. cbn [fst snd].
  rewrite getitem_Ok by done. cbn [mbind result_bind].
  rewrite !compare_with_Ok by done. cbn [mbind result_bind].
  unfold mask_and. rewrite zip_with_fmap_l, zip_with_fmap_r, zip_with_diag.
  rewrite (bool_index_fmap df
             (fun r => match cell r "year" with Int z => z >=? a | _ => false end
                       && match cell r "year" with Int z => z <=? b | _ => false end)).
  do 2 f_equal. apply list_filter_iff. intros r. unfold year_between.
  destruct (cell r "year"); try done. by rewrite Z.geb_leb.
Qed.

Lemma numeric_column_sublist df c cs l :
  numeric_column df c → c ∈ cs → (∀ r, r ∈ l → r ∈ rows df) →
  numeric_column (mkFrame cs l) c.
Proof.
  intros [_ H]%numeric_column_alt ? Hl. apply numeric_column_alt.
  split; [done|]. intros r Hr. apply H, Hl, Hr.
Qed.

Lemma text_column_sublist df c cs l :
  text_column df c → c ∈ cs → (∀ r, r ∈ l → r ∈ rows df) →
  text_column (mkFrame cs l) c.
Proof.
  intros [_ H]%text_column_alt ? Hl. apply text_column_alt.
  split; [done|]. intros r Hr. apply H, Hl, Hr.
Qed.

(** A selection keeps the numeric and the text columns of the table. *)
Lemma df_filtered_keeps df a b c :
  numeric_column df "year" →
  ∃ out, df_filtered df (a, b) = Ok out ∧ numeric_column out "year" ∧
         (text_column df c → text_column out c).
Proof.
  intros Hnum. eexists. split; [by apply df_filtered_Ok|]. split.
  - eapply numeric_column_sublist; [done|apply Hnum|].
    by intros r [_ Hr]%list_elem_of_filter.
  - intros Htext. eapply text_column_sublist; [done|apply Htext|].
    by intros r [_ Hr]%list_elem_of_filter.
Qed.

Lemma elem_of_years df y :
  y ∈ years df ↔ ∃ r, r ∈ rows df ∧ cell r "year" = Int y.
Proof.
  unfold years. rewrite list_elem_of_omap. split.
  - intros (r & Hr & H). exists r. split; [done|].
    destruct (cell r "year"); try done. by injection H as ->.
  - intros (r & Hr & H). exists r. split; [done|]. by rewrite H.
Qed.

(** ** Counting and ranking *)

Lemma Counter_snoc ws w : Counter (ws ++ [w]) = count_elem w (Counter ws).
Proof. unfold Counter. by rewrite fold_left_app. Qed.

Lemma total_count_elem w c : total_count (count_elem w c) = S (total_count c).
Proof.
  unfold total_count. induction c as [|[k v] c IH]; [done|].
  cbn [count_elem]. case_decide; csimpl; [done|]. rewrite IH. lia.
Qed.

Lemma total_count_Counter ws : total_count (Counter ws) = length ws.
Proof.
  induction ws as [|w ws IH] using rev_ind; [done|].
  rewrite Counter_snoc, total_count_elem, IH, length_app. simpl. lia.
Qed.

Lemma elem_of_distinct t l : t ∈ distinct l ↔ t ∈ l.
Proof.
  induction l as [|x l IH]; simpl; [done|].
  rewrite !elem_of_cons, list_elem_of_filter, IH.
  destruct (decide (t = x)); naive_solver.
Qed.

Lemma NoDup_distinct l : NoDup (distinct l).
Proof.
  induction l as [|x l IH]; simpl; [constructor|].
  apply NoDup_cons. split.
  - rewrite list_elem_of_filter. naive_solver.
  - by apply NoDup_filter.
Qed.

Lemma distinct_snoc l w :
  distinct (l ++ [w]) = if decide (w ∈ l) then distinct l else distinct l ++ [w].
Proof.
  induction l as [|x l IH]; cbn [distinct app].
  - by rewrite decide_False by (by intros ?%elem_of_nil).
  - rewrite IH. destruct (decide (w = x)) as [->|Hne].
    + rewrite (decide_True (P := x ∈ x :: l)) by left.
      case_decide; [done|]. rewrite filter_app, filter_cons_False by naive_solver.
      by rewrite filter_nil, app_nil_r.
    + destruct (decide (w ∈ l)) as [Hin|Hin].
      * rewrite decide_True by (by right). done.
      * rewrite decide_False by (rewrite elem_of_cons; naive_solver).
        rewrite filter_app, filter_cons_True by done. by rewrite filter_nil.
Qed.

Lemma occurrences_snoc t l w :
  occurrences t (l ++ [w]) = (occurrences t l + if decide (w = t) then 1 else 0)%nat.
Proof.
  unfold occurrences. rewrite filter_app, length_app, filter_cons, filter_nil.
  by case_decide.
Qed.

(** Counting one more token in a table of counts with distinct keys. *)
Lemma count_elem_fmap_in (f : string -> nat) w (D : list string) :
  NoDup D → w ∈ D →
  count_elem w ((fun t => (t, f t)) <$> D) =
  (fun t => (t, (f t + if decide (w = t) then 1 else 0)%nat)) <$> D.
Proof.
  induction D as [|x D IH]; intros HD Hw; [by apply elem_of_nil in Hw|].
  apply NoDup_cons in HD as [Hx HD]. rewrite !fmap_cons. cbn [count_elem]. destruct (decide (x = w)) as [->|Hne].
  - rewrite decide_True by done. f_equal; [f_equal; lia|].
    apply list_fmap_ext. intros _ t Ht%list_elem_of_lookup_2.
    rewrite decide_False by (intros <-; done). f_equal; lia.
  - rewrite decide_False by done. f_equal; [f_equal; lia|].
    apply IH; [done|]. apply elem_of_cons in Hw as [->|]; done.
Qed.

Lemma count_elem_fmap_notin (f : string -> nat) w (D : list string) :
  w ∉ D →
  count_elem w ((fun t => (t, f t)) <$> D) =
  ((fun t => (t, (f t + if decide (w = t) then 1 else 0)%nat)) <$> D) ++ [(w, 1%nat)].
Proof.
  induction D as [|x D IH]; intros Hw; [done|].
  apply not_elem_of_cons in Hw as [Hne Hw].
  rewrite !fmap_cons. cbn [count_elem].
  rewrite decide_False by done. rewrite decide_False by done.
  rewrite IH by done. simpl. do 2 f_equal. lia.
Qed.

Lemma occurrences_not_in t l : t ∉ l → occurrences t l = 0%nat.
Proof.
  intros Ht. unfold occurrences.
  induction l as [|x l IH]; [done|].
  apply not_elem_of_cons in Ht as [Hne Ht].
  rewrite filter_cons_False by done. by apply IH.
Qed.

(** A [Counter] holds the distinct tokens in the order of their first
    appearance, each with its number of occurrences. *)
Lemma Counter_counts ws : Counter ws = counts_spec ws.
Proof.
  induction ws as [|w ws IH] using rev_ind; [done|].
  rewrite Counter_snoc, IH. unfold counts_spec. rewrite distinct_snoc.
  destruct (decide (w ∈ ws)) as [Hin|Hin].
  - rewrite count_elem_fmap_in by (by apply NoDup_distinct || by apply elem_of_distinct).
    apply list_fmap_ext. intros _ t _. by rewrite occurrences_snoc.
  - rewrite count_elem_fmap_notin by (by rewrite elem_of_distinct).
    rewrite fmap_app. f_equal.
    + apply list_fmap_ext. intros _ t _. by rewrite occurrences_snoc.
    + simpl. rewrite occurrences_snoc, decide_True by done.
      by rewrite occurrences_not_in.
Qed.


Lemma insert_desc_perm x l : insert_desc x l ≡ₚ x :: l.
Proof.
  induction l as [|y l IH]; simpl; [done|].
  destruct (x.2 <? y.2)%nat; [|done].
  rewrite IH. apply perm_swap.
Qed.

Lemma sorted_desc_perm l : sorted_desc l ≡ₚ l.
Proof.
  induction l as [|x l IH]; simpl; [done|].
  by rewrite insert_desc_perm, IH.
Qed.

Lemma StronglySorted_lookup {A} (R : relation A) l i j x y :
  StronglySorted R l → l !! i = Some x → l !! j = Some y → (i < j)%nat → R x y.
Proof.
  intros Hl. revert i j. induction Hl as [|z l Hl IH Hz]; intros i j Hi Hj Hlt.
  - by rewrite lookup_nil in Hi.
  - destruct j as [|j]; [lia|]. simpl in Hj. destruct i as [|i]; simpl in Hi.
    + injection Hi as ->. rewrite Forall_forall in Hz.
      by eapply Hz, list_elem_of_lookup_2.
    + eapply IH; eauto. lia.
Qed.

Lemma StronglySorted_take {A} (R : relation A) n l :
  StronglySorted R l → StronglySorted R (take n l).
Proof.
  intros Hl. rewrite <- (take_drop n l) in Hl.
  by apply StronglySorted_app_1_l in Hl.
Qed.

Section ranking.

Variable toks : list string.

Let pos (e : string * nat) : nat := first_index e.1 toks.

Lemma ranks_before_count x y : ranks_before toks x y → (y.2 ≤ x.2)%nat.
Proof. intros [?|[? _]]; lia. Qed.

(** Putting an entry that appeared before all the others into a ranking
    keeps it a ranking. *)
Lemma insert_desc_sorted x l :
  StronglySorted (ranks_before toks) l →
  Forall (fun y => (pos x < pos y)%nat) l →
  StronglySorted (ranks_before toks) (insert_desc x l).
Proof.
  induction 1 as [|y l Hl IH Hy]; intros Hpos; simpl.
  - repeat constructor.
  - apply Forall_cons in Hpos as [Hxy Hpos].
    destruct (x.2 <? y.2)%nat eqn:E.
    + apply Nat.ltb_lt in E. constructor; [by apply IH|].
      rewrite insert_desc_perm. constructor; [by left | done].
    + apply Nat.ltb_ge in E. constructor; [by constructor|].
      constructor.
      * unfold ranks_before. fold (pos x) (pos y). lia.
      * rewrite Forall_forall in *. intros z Hz.
        pose proof (ranks_before_count _ _ (Hy z Hz)).
        pose proof (Hpos z Hz). unfold ranks_before. fold (pos x) (pos z). lia.
Qed.

Lemma sorted_desc_sorted l :
  StronglySorted (fun x y => (pos x < pos y)%nat) l →
  StronglySorted (ranks_before toks) (sorted_desc l).
Proof.
  induction 1 as [|x l Hl IH Hx]; simpl; [constructor|].
  apply insert_desc_sorted; [done|]. by rewrite sorted_desc_perm.
Qed.

End ranking.

Lemma first_index_cons_ne x t l :
  x ≠ t → first_index t (x :: l) = S (first_index t l).
Proof. intros. simpl. by rewrite decide_False. Qed.

Lemma first_index_cons_eq x l : first_index x (x :: l) = 0%nat.
Proof. simpl. by rewrite decide_True. Qed.

(** The distinct tokens come in the order of their first appearance. *)
Lemma distinct_first_index ws :
  StronglySorted (fun s t => (first_index s ws < first_index t ws)%nat) (distinct ws).
Proof.
  induction ws as [|x ws IH]; cbn [distinct]; [constructor|].
  constructor.
  - assert (∀ l, StronglySorted (fun s t => (first_index s ws < first_index t ws)%nat) l →
                 StronglySorted (fun s t => (first_index s (x :: ws) < first_index t (x :: ws))%nat)
                                (filter (fun y => y ≠ x) l)) as Hfilter; [|by apply Hfilter].
    clear IH. induction 1 as [|y l Hl IHl Hy]; [constructor|].
    rewrite filter_cons. case_decide as Hyx; [|done].
    constructor; [done|].
    rewrite Forall_forall in *. intros z [Hzx Hz]%list_elem_of_filter.
    rewrite !first_index_cons_ne by done. specialize (Hy z Hz). lia.
  - rewrite Forall_forall. intros z [Hzx Hz]%list_elem_of_filter.
    rewrite (first_index_cons_ne x z) by done. rewrite first_index_cons_eq. lia.
Qed.

(** The full ranking of a token stream is a ranking. *)
Lemma ranking_sorted ws :
  StronglySorted (ranks_before ws) (sorted_desc (Counter ws)).
Proof.
  apply sorted_desc_sorted. rewrite Counter_counts.
  eapply StronglySorted_fmap, distinct_first_index. done.
Qed.

Lemma length_counts_spec ws : length (counts_spec ws) = length (distinct ws).
Proof. unfold counts_spec. by rewrite length_fmap. Qed.

Lemma total_count_perm c1 c2 : c1 ≡ₚ c2 → total_count c1 = total_count c2.
Proof. intros H. unfold total_count. by rewrite H. Qed.


(** ** The token stream *)

Lemma traverse_Ok_fmap {A B} (f : A -> result B) (h : A -> B) l :
  (∀ x, x ∈ l → f x = Ok (h x)) → traverse f l = Ok (h <$> l).
Proof.
  intros H. rewrite <- (list_fmap_id l) at 1. by apply traverse_fmap_Ok.
Qed.

(** Dropping the missing texts or reading them as empty gives the same
    tokens. *)
Lemma tokens_dropna (col : Series) :
  (∀ v, v ∈ col → v = NaN ∨ ∃ s, v = Str s) →
  concat ((fun s => str_split (str_lower s)) <$> (text_of <$> dropna_series col)) =
  concat ((fun s => str_split (str_lower s)) <$> (text_of <$> col)).
Proof.
  unfold dropna_series. induction col as [|v col IH]; intros H; [done|].
  assert (∀ v', v' ∈ col → v' = NaN ∨ ∃ s, v' = Str s) as Hcol.
  { intros v' Hv'. apply H. by right. }
  rewrite filter_cons. destruct (H v) as [->|[s ->]]; [by left| |].
  - rewrite decide_False by done. rewrite IH by done.
    rewrite !fmap_cons. done.
  - rewrite decide_True by done. rewrite !fmap_cons. cbn [concat].
    by rewrite IH.
Qed.

Lemma words_of_Ok df field :
  text_column df field → words_of df field = Ok (tokens_spec df field).
Proof.
  intros [Hc Htext]%text_column_alt. unfold words_of, tokens_spec.
  rewrite getitem_Ok by done. cbn [mbind result_bind].
  assert (∀ v, v ∈ (fun r => cell r field) <$> rows df → v = NaN ∨ ∃ s, v = Str s) as Hcol.
  { intros v (r & -> & Hr)%list_elem_of_fmap. by apply Htext. }
  unfold tolist_str. rewrite (traverse_Ok_fmap _ text_of); cycle 1.
  { intros v [Hna Hv]%list_elem_of_filter. destruct (Hcol v Hv) as [->|[s ->]]; done. }
  cbn [mbind result_bind]. f_equal.
  rewrite !tokens_join, tokens_dropna by done.
  do 2 f_equal. by rewrite <- list_fmap_compose.
Qed.

Lemma top_words_Ok df field n :
  text_column df field →
  top_words df field n = Ok (take n (sorted_desc (Counter (tokens_spec df field)))).
Proof. intros H. unfold top_words. by rewrite words_of_Ok. Qed.

Lemma tokens_spec_empty df field : rows df = [] → tokens_spec df field = [].
Proof. intros H. unfold tokens_spec. by rewrite H. Qed.

Lemma count_NoDup {A} `{EqDecision A} (l : list A) x :
  NoDup l → x ∈ l → length (filter (fun y => y = x) l) = 1%nat.
Proof.
  induction 1 as [|y l Hy Hl IH]; intros Hx; [by apply elem_of_nil in Hx|].
  rewrite filter_cons. apply elem_of_cons in Hx as [->|Hx].
  - rewrite decide_True by done. simpl. f_equal.
    apply length_zero_iff_nil, elem_of_nil_inv.
    intros z [-> Hz]%list_elem_of_filter. done.
  - rewrite decide_False by (intros ->; done). by apply IH.
Qed.


(** ** The loader *)

Section Properties.

Variable read_table : string -> io_error + (list string * list (list string)).
Variable parse_datetime : Series -> value -> option Timestamp.
Variable dates_error : Series -> option exn.
Variable text_dtype : Series -> bool.

Local Abbreviation read_csv := (read_csv read_table).
Local Abbreviation to_datetime := (to_datetime parse_datetime).
Local Abbreviation datetimelike := (datetimelike dates_error).
Local Abbreviation word_counts := (word_counts text_dtype).
Local Abbreviation text_abstracts := (text_abstracts text_dtype).
Local Abbreviation derive_columns := (derive_columns parse_datetime dates_error text_dtype).
Local Abbreviation load_data := (load_data read_table parse_datetime dates_error text_dtype).
Local Abbreviation parsed := (parsed parse_datetime).
Local Abbreviation derive_row := (derive_row parse_datetime).
Local Abbreviation date_row := (date_row parse_datetime).
Local Abbreviation cleaned := (cleaned parse_datetime).

(** The cell of a line read from the file: its text, or missing when the
    text is one of the NA words or the line is too short. *)
Lemma cell_row_of header i fields c :
  cell (row_of header i fields) c =
  from_option na_convert NaN (field_text header fields c).
Proof.
  unfold cell, row_of; simpl. rewrite field_text_fmap.
  by destruct (field_text header fields c).
Qed.

Lemma na_convert_text s : na_convert s = NaN ∨ (na_convert s = Str s ∧ s ∉ STR_NA_VALUES).
Proof. unfold na_convert. case_decide; auto. Qed.


(** Every cell read from a file is a text that is not an NA word, or is
    missing. *)
Lemma frame_of_cells header lines r c :
  r ∈ rows (frame_of header lines) →
  cell r c = NaN ∨ ∃ s, cell r c = Str s ∧ s ∉ STR_NA_VALUES.
Proof.
  simpl. intros (i & fields & -> & _)%elem_of_lookup_imap.
  rewrite cell_row_of. destruct (field_text header fields c) as [s|]; simpl; [|by left].
  destruct (na_convert_text s) as [->|[-> ?]]; eauto.
Qed.

Lemma parsed_cases col v :
  parsed col v = NaT ∨ ∃ t, parsed col v = Datetime t.
Proof.
  unfold parsed. destruct (isna v); [by left|].
  destruct (parse_datetime col v); eauto.
Qed.

(** ** The loader, row by row *)

Lemma dt_year_Ok df c :
  (∀ r, r ∈ rows df → cell r c = NaT ∨ ∃ t, cell r c = Datetime t) →
  dt_year ((fun r => cell r c) <$> rows df) = Ok ((fun r => year_of (cell r c)) <$> rows df).
Proof.
  intros H. apply traverse_fmap_Ok. intros r Hr.
  destruct (H r Hr) as [->|[t ->]]; done.
Qed.

Lemma word_count_Ok df c :
  (∀ r, r ∈ rows df → cell r c = NaN ∨ ∃ s, cell r c = Str s) →
  traverse word_count (fillna (Str "") ((fun r => cell r c) <$> rows df)) =
  Ok ((fun r => Int (Z.of_nat (length (str_split (text_of (cell r c)))))) <$> rows df).
Proof.
  intros H. unfold fillna. rewrite <- list_fmap_compose.
  apply traverse_fmap_Ok. intros r Hr; simpl.
  destruct (H r Hr) as [->|[s ->]]; done.
Qed.

(** Line 23 on a column read as numbers or booleans: the counts are all
    0 when every cell is missing, and the first cell present raises. *)
Lemma word_count_number_na v :
  isna v = true → word_count_number v = Ok (Int 0).
Proof. unfold word_count_number. by intros ->. Qed.

Lemma word_count_number_present v :
  isna v = false → word_count_number v = Raise AttributeError.
Proof. unfold word_count_number. by intros ->. Qed.

Lemma word_count_number_Ok (s : Series) :
  forallb isna s = true →
  traverse word_count_number s = Ok ((fun _ => Int 0) <$> s).
Proof.
  induction s as [|v s IH]; [done|]. cbn [forallb].
  intros [Hv Hs]%andb_true_iff. rewrite fmap_cons. cbn [traverse].
  rewrite word_count_number_na, IH by done. done.
Qed.

Lemma word_count_number_Raise (s : Series) :
  forallb isna s = false →
  traverse word_count_number s = Raise AttributeError.
Proof.
  induction s as [|v s IH]; [done|]. cbn [forallb traverse].
  destruct (isna v) eqn:Hv.
  - cbn [andb]. intros Hs. by rewrite word_count_number_na, IH.
  - intros _. by rewrite word_count_number_present.
Qed.

(** Line 23 on the abstracts of a frame whose cells are texts or missing. *)
Lemma word_counts_Ok df :
  (∀ r, r ∈ rows df → cell r "abstract" = NaN ∨ ∃ s, cell r "abstract" = Str s) →
  text_abstracts df = true →
  word_counts (abstract_column df) =
  Ok ((fun r => Int (Z.of_nat (length (str_split (text_of (cell r "abstract")))))) <$> rows df).
Proof.
  intros Hcells Htext. unfold word_counts.
  destruct (text_dtype (abstract_column df)) eqn:Hd; [by apply word_count_Ok|].
  unfold text_abstracts in Htext. rewrite Hd in Htext. cbn [orb] in Htext.
  rewrite word_count_number_Ok by done. f_equal.
  unfold abstract_column. rewrite <- list_fmap_compose.
  apply list_fmap_ext. intros i r Hi; simpl.
  apply list_elem_of_lookup_2 in Hi.
  destruct (Hcells r Hi) as [->|[x Hx]]; [done|].
  rewrite forallb_forall in Htext.
  specialize (Htext (cell r "abstract")). rewrite Hx in Htext.
  discriminate Htext. apply list_elem_of_In, list_elem_of_fmap. eauto.
Qed.

Lemma word_counts_Raise df :
  text_abstracts df = false →
  word_counts (abstract_column df) = Raise AttributeError.
Proof.
  unfold text_abstracts, word_counts.
  intros [-> Hna]%orb_false_iff. by apply word_count_number_Raise.
Qed.

Lemma abstract_column_date_row col df :
  (fun r => cell r "abstract") <$> (date_row col <$> rows df) = abstract_column df.
Proof.
  unfold abstract_column. rewrite <- list_fmap_compose.
  apply list_fmap_ext. intros _ r _; simpl. unfold date_row.
  by rewrite !cell_set_cell_ne by done.
Qed.

(** Lines 20-21 succeed on a frame with a date column of which a datetime
    column is made; the rest of [derive_columns] runs on the frame they
    leave. *)
Lemma derive_columns_dates df :
  "publish_time" ∈ columns df →
  dates_error (date_column df) = None →
  derive_columns df =
  (let df2 := mkFrame (add_column "year" (columns df))
                      (date_row (date_column df) <$> rows df) in
   s ← getitem df2 "abstract";
   n ← word_counts s;
   Ok (setitem df2 "abstract_word_count" n)).
Proof.
  intros Hpt Hdates. unfold derive_columns.
  rewrite getitem_Ok by done. cbn [mbind result_bind].
  fold (date_column df). set (col := date_column df) in *.
  unfold datetimelike. rewrite Hdates. cbn [mbind result_bind].
  assert (to_datetime col = (fun r => parsed col (cell r "publish_time")) <$> rows df) as ->.
  { unfold to_datetime, col, date_column. by rewrite <- list_fmap_compose. }
  rewrite setitem_fmap.
  assert (add_column "publish_time" (columns df) = columns df) as ->.
  { unfold add_column. by rewrite decide_True. }
  set (df1 := mkFrame _ _).
  rewrite (getitem_Ok df1) by done. cbn [mbind result_bind].
  rewrite dt_year_Ok; cycle 1.
  { intros r (r0 & -> & _)%list_elem_of_fmap. rewrite cell_set_cell_eq.
    apply parsed_cases. }
  cbn [mbind result_bind]. rewrite setitem_fmap.
  subst df1; cbn [rows columns]. rewrite <- !list_fmap_compose.
  assert (∀ l : list Row,
    ((fun r => set_cell "year" (year_of (cell r "publish_time")) r)
       ∘ (fun r => set_cell "publish_time" (parsed col (cell r "publish_time")) r)) <$> l
    = date_row col <$> l) as ->; [|done].
  intros l. apply list_fmap_ext. intros _ r _; simpl. unfold date_row.
  by rewrite cell_set_cell_eq.
Qed.

(** Lines 20-23 succeed on a frame that has the two columns they read,
    dates of which a datetime column is made and texts for abstracts, and
    rewrite each row on its own. *)
Lemma derive_columns_Ok df :
  "publish_time" ∈ columns df → "abstract" ∈ columns df →
  dates_error (date_column df) = None →
  (∀ r, r ∈ rows df → cell r "abstract" = NaN ∨ ∃ s, cell r "abstract" = Str s) →
  text_abstracts df = true →
  derive_columns df =
  Ok (mkFrame (add_column "abstract_word_count" (add_column "year" (columns df)))
              (derive_row (date_column df) <$> rows df)).
Proof.
  intros Hpt Hab Hdates Hcells Htext. rewrite derive_columns_dates by done. cbv zeta.
  set (df2 := mkFrame _ _).
  rewrite (getitem_Ok df2); cycle 1.
  { apply elem_of_add_column. by right. }
  cbn [mbind result_bind].
  change ((fun r => cell r "abstract") <$> rows df2) with (abstract_column df2).
  rewrite (word_counts_Ok df2); cycle 1.
  { intros r (r0 & -> & Hr0)%list_elem_of_fmap. unfold date_row.
    rewrite !cell_set_cell_ne by done. by apply Hcells. }
  { unfold text_abstracts, abstract_column. subst df2; cbn [rows].
    by rewrite abstract_column_date_row. }
  cbn [mbind result_bind]. rewrite setitem_fmap. f_equal. f_equal.
  subst df2; cbn [rows]. rewrite <- !list_fmap_compose.
  apply list_fmap_ext. intros _ r _; simpl. unfold derive_row, date_row.
  by rewrite !cell_set_cell_ne by done.
Qed.

Lemma derive_columns_no_dates df :
  "publish_time" ∉ columns df → derive_columns df = Raise (KeyError ["publish_time"]).
Proof. intros H. unfold derive_columns. by rewrite getitem_KeyError. Qed.

(** Dates of which no datetime column is made stop the loader on lines
    20-21, with the exception of the library. *)
Lemma derive_columns_bad_dates df e :
  "publish_time" ∈ columns df → dates_error (date_column df) = Some e →
  derive_columns df = Raise e.
Proof.
  intros Hpt Hdates. unfold derive_columns.
  rewrite getitem_Ok by done. cbn [mbind result_bind].
  fold (date_column df). unfold datetimelike. by rewrite Hdates.
Qed.

Lemma derive_columns_no_abstract df :
  "publish_time" ∈ columns df → dates_error (date_column df) = None →
  "abstract" ∉ columns df →
  derive_columns df = Raise (KeyError ["abstract"]).
Proof.
  intros Hpt Hdates Hab. rewrite derive_columns_dates by done. cbv zeta.
  rewrite getitem_KeyError; [done|]. cbn [columns].
  rewrite elem_of_add_column. intros [[=]|?]; done.
Qed.

(** Abstracts read as numbers or booleans, one of them present, stop the
    loader on line 23. *)
Lemma derive_columns_numbers df :
  "publish_time" ∈ columns df → dates_error (date_column df) = None →
  "abstract" ∈ columns df → text_abstracts df = false →
  derive_columns df = Raise AttributeError.
Proof.
  intros Hpt Hdates Hab Htext. rewrite derive_columns_dates by done. cbv zeta.
  set (df2 := mkFrame _ _).
  rewrite (getitem_Ok df2); cycle 1.
  { apply elem_of_add_column. by right. }
  cbn [mbind result_bind].
  change ((fun r => cell r "abstract") <$> rows df2) with (abstract_column df2).
  rewrite (word_counts_Raise df2); [done|].
  unfold text_abstracts, abstract_column. subst df2; cbn [rows].
  by rewrite abstract_column_date_row.
Qed.

(** [dropna] on the two essential columns. *)
Lemma dropna_essential df :
  "publish_time" ∈ columns df →
  dropna ["title"; "publish_time"] df =
  if decide ("title" ∈ columns df)
  then Ok (mkFrame (columns df) (filter (fun r => essential r = true) (rows df)))
  else Raise (KeyError ["title"]).
Proof.
  intros Hpt. unfold dropna. rewrite !filter_cons, filter_nil.
  rewrite (decide_False (P := "publish_time" ∉ columns df)) by tauto.
  destruct (decide ("title" ∈ columns df)) as [Ht|Ht].
  - rewrite decide_False by tauto. do 2 f_equal.
    apply list_filter_iff. intros r. unfold essential; simpl.
    by rewrite andb_true_r.
  - by rewrite decide_True.
Qed.

(** What [load_data] does, case by case, in the order of its lines. *)
Lemma load_data_eq path :
  load_data path =
  match read_table path with
  | inl e => Raise (LoadFailure e)
  | inr (header, lines) =>
      if decide ("publish_time" ∈ header)
      then match dates_error (date_column (frame_of header lines)) with
           | Some e => Raise e
           | None =>
               if decide ("abstract" ∈ header)
               then if text_abstracts (frame_of header lines)
                    then if decide ("title" ∈ header)
                         then Ok (cleaned (frame_of header lines))
                         else Raise (KeyError ["title"])
                    else Raise AttributeError
               else Raise (KeyError ["abstract"])
           end
      else Raise (KeyError ["publish_time"])
  end.
Proof.
  unfold load_data, read_csv.
  destruct (read_table path) as [e|[header lines]]; [done|].
  cbn [mbind result_bind]. fold (frame_of header lines).
  case_decide as Hpt; [|by rewrite derive_columns_no_dates].
  destruct (dates_error _) as [e|] eqn:Hdates;
    [by rewrite (derive_columns_bad_dates _ e)|].
  case_decide as Hab; [|by rewrite derive_columns_no_abstract].
  destruct (text_abstracts _) eqn:Htext; [|by rewrite derive_columns_numbers].
  rewrite derive_columns_Ok; [|done..| |done]; cycle 1.
  { intros r Hr. destruct (frame_of_cells header lines r "abstract" Hr)
      as [?|(s & ? & _)]; eauto. }
  cbn [mbind result_bind]. rewrite dropna_essential; cbn [columns rows].
  - unfold cleaned. destruct (decide ("title" ∈ header)) as [Ht|Ht].
    + rewrite decide_True; [done|]. rewrite !elem_of_add_column. auto.
    + rewrite decide_False; [done|]. rewrite !elem_of_add_column.
      intros [[=]|[[=]|?]]; done.
  - rewrite !elem_of_add_column. auto.
Qed.

(** ** Rows of the cleaned table *)

Lemma derive_row_label col r : (derive_row col r).1 = r.1.
Proof. done. Qed.

Lemma derive_row_word_count col r :
  cell (derive_row col r) "abstract_word_count" =
  Int (Z.of_nat (length (str_split (text_of (cell r "abstract"))))).
Proof. unfold derive_row. by rewrite cell_set_cell_eq. Qed.

Lemma derive_row_year col r :
  cell (derive_row col r) "year" = year_of (parsed col (cell r "publish_time")).
Proof.
  unfold derive_row. rewrite cell_set_cell_ne by done. by rewrite cell_set_cell_eq.
Qed.

Lemma derive_row_date col r :
  cell (derive_row col r) "publish_time" = parsed col (cell r "publish_time").
Proof.
  unfold derive_row. rewrite !cell_set_cell_ne by done. by rewrite cell_set_cell_eq.
Qed.

Lemma derive_row_lookup_other col r c :
  c ∉ ["publish_time"; "year"; "abstract_word_count"] →
  (derive_row col r).2 !! c = r.2 !! c.
Proof.
  intros Hc. unfold derive_row.
  rewrite !lookup_set_cell_ne; [done|..]; intros <-; apply Hc;
    repeat first [by apply list_elem_of_here | apply list_elem_of_further].
Qed.

Lemma derive_row_other col r c :
  c ∉ ["publish_time"; "year"; "abstract_word_count"] →
  cell (derive_row col r) c = cell r c.
Proof. intros Hc. unfold cell. by rewrite derive_row_lookup_other. Qed.

Lemma elem_of_cleaned header lines r :
  r ∈ rows (cleaned (frame_of header lines)) ↔
  ∃ fields, lines !! r.1 = Some fields ∧
            r = derive_row (date_column (frame_of header lines)) (row_of header r.1 fields) ∧
            essential r = true.
Proof.
  cbn [cleaned rows frame_of]. rewrite list_elem_of_filter, list_elem_of_fmap. split.
  - intros (Hess & r0 & -> & (i & fields & -> & Hi)%elem_of_lookup_imap).
    exists fields. done.
  - intros (fields & Hi & Hr & Hess). split; [done|].
    exists (row_of header r.1 fields). split; [done|].
    by apply elem_of_lookup_imap_2.
Qed.

Lemma load_data_Ok path df :
  load_data path = Ok df →
  ∃ header lines, read_table path = inr (header, lines) ∧
    "publish_time" ∈ header ∧ "abstract" ∈ header ∧ "title" ∈ header ∧
    df = cleaned (frame_of header lines).
Proof.
  rewrite load_data_eq. destruct (read_table path) as [e|[header lines]]; [done|].
  case_decide; [|done]. destruct (dates_error _); [done|].
  case_decide; [|done]. destruct (text_abstracts _); [|done].
  case_decide; [|done]. intros [= <-]. by eauto 10.
Qed.

Lemma labels_frame_of header lines :
  (rows (frame_of header lines)).*1 = seq 0 (length lines).
Proof.
  cbn [rows frame_of]. rewrite fmap_imap.
  rewrite (imap_ext _ (fun i _ => i)) by done.
  rewrite imap_seq_0. by rewrite list_fmap_id.
Qed.

Lemma labels_cleaned header lines :
  (rows (cleaned (frame_of header lines))).*1 `sublist_of` seq 0 (length lines).
Proof.
  rewrite <- (labels_frame_of header). cbn [cleaned rows].
  set (col := date_column _). set (l := rows (frame_of header lines)).
  assert (l.*1 = (derive_row col <$> l).*1) as ->.
  { rewrite <- list_fmap_compose. by apply list_fmap_ext. }
  apply fmap_sublist, sublist_filter.
Qed.


(** A loaded table has its [year] column, with an integer in every row,
    and a title in every row. *)
Lemma cleaned_year header lines r :
  r ∈ rows (cleaned (frame_of header lines)) →
  ∃ t, cell r "publish_time" = Datetime t ∧ cell r "year" = Int (ts_year t) ∧
       parsed (date_column (frame_of header lines))
              (cell (row_of header r.1 (default [] (lines !! r.1))) "publish_time")
       = Datetime t.
Proof.
  intros (fields & Hi & Hr & Hess)%elem_of_cleaned. rewrite Hi; simpl.
  set (col := date_column _) in *. set (r0 := row_of _ _ _) in *.
  assert (cell r "publish_time" = parsed col (cell r0 "publish_time")) as Hd.
  { rewrite Hr at 1. apply derive_row_date. }
  assert (cell r "year" = year_of (parsed col (cell r0 "publish_time"))) as Hy.
  { rewrite Hr at 1. apply derive_row_year. }
  unfold essential in Hess. apply andb_true_iff in Hess as [_ Hp].
  rewrite Hd in Hp. rewrite Hd, Hy.
  destruct (parsed_cases col (cell r0 "publish_time")) as [E|[t E]]; rewrite E in *.
  - done.
  - by exists t.
Qed.

Lemma cleaned_title header lines r :
  r ∈ rows (cleaned (frame_of header lines)) →
  ∃ s, cell r "title" = Str s ∧ (s ∉ STR_NA_VALUES) ∧
       field_text header (default [] (lines !! r.1)) "title" = Some s.
Proof.
  intros (fields & Hi & Hr & Hess)%elem_of_cleaned. rewrite Hi; simpl.
  set (col := date_column _) in *. set (r0 := row_of _ _ _) in *.
  assert (cell r "title" = cell r0 "title") as Ht.
  { rewrite Hr at 1. apply derive_row_other. not_in_literals. }
  unfold essential in Hess. apply andb_true_iff in Hess as [Hp _].
  rewrite Ht in *. unfold r0 in *. rewrite cell_row_of in *.
  destruct (field_text header fields "title") as [s|]; [|done].
  simpl in *. exists s. destruct (na_convert_text s) as [E|[E ?]]; rewrite E in *; done.
Qed.

Lemma load_data_numeric_year path df :
  load_data path = Ok df → numeric_column df "year".
Proof.
  intros (header & lines & _ & _ & _ & _ & ->)%load_data_Ok.
  apply numeric_column_alt. split.
  - cbn [cleaned columns]. rewrite !elem_of_add_column. auto.
  - intros r (t & _ & -> & _)%cleaned_year. eauto.
Qed.

(** ** The claims about the loader *)

(** C1. Every record of a table returned by [load_data] has a title that
    is a non-empty text and a year that is an integer, the year of its
    publish_time as [to_datetime] parsed it; and every line of the file
    whose title is missing or empty, or whose publish_time is missing or
    does not parse, is left out of the table. *)
Theorem load_data_essential_fields path header lines df :
  read_table path = inr (header, lines) →
  load_data path = Ok df →
  (∀ r, r ∈ rows df →
     ∃ s t fields,
       lines !! r.1 = Some fields ∧
       field_text header fields "title" = Some s ∧
       cell r "title" = Str s ∧ s ≠ EmptyString ∧
       parsed (date_column (frame_of header lines))
              (cell (row_of header r.1 fields) "publish_time") = Datetime t ∧
       cell r "publish_time" = Datetime t ∧
       cell r "year" = Int (ts_year t)) ∧
  (∀ i fields,
     lines !! i = Some fields →
     field_text header fields "title" = None ∨
     field_text header fields "title" = Some EmptyString ∨
     parsed (date_column (frame_of header lines))
            (cell (row_of header i fields) "publish_time") = NaT →
     i ∉ (rows df).*1).
Proof.
  intros Hread (header' & lines' & Hread' & _ & _ & _ & ->)%load_data_Ok.
  rewrite Hread in Hread'. injection Hread' as <- <-. split.
  - intros r Hr.
    destruct (cleaned_title _ _ _ Hr) as (s & Ht & Hs & Hf).
    destruct (cleaned_year _ _ _ Hr) as (t & Hd & Hy & Hp).
    apply elem_of_cleaned in Hr as (fields & Hi & _ & _).
    rewrite Hi in Hf, Hp; simpl in Hf, Hp.
    exists s, t, fields. repeat split; try done.
    intros ->. apply Hs. by left.
  - intros i fields Hi Hbad (r & -> & Hr)%list_elem_of_fmap.
    destruct (cleaned_title _ _ _ Hr) as (s & _ & Hs & Hf).
    destruct (cleaned_year _ _ _ Hr) as (t & _ & _ & Hp).
    rewrite Hi in Hf, Hp; simpl in Hf, Hp.
    destruct Hbad as [Hbad|[Hbad|Hbad]]; rewrite Hbad in *; try done.
    injection Hf as <-. apply Hs. by left.
Qed.



(** C10. A row that survives cleaning keeps, under every column other than
    [publish_time], [year] and [abstract_word_count], the cell the reader
    gave it (so its title, authors, journal, abstract and source are
    unchanged); its [publish_time] is the parsed form of the one read, and
    [year] and [abstract_word_count] are the two derived columns. *)
Theorem load_data_frame path header lines df :
  read_table path = inr (header, lines) →
  load_data path = Ok df →
  columns df = add_column "abstract_word_count" (add_column "year" header) ∧
  ∀ r, r ∈ rows df →
    ∃ fields, lines !! r.1 = Some fields ∧
      let r0 := row_of header r.1 fields in
      (∀ c, c ∉ ["publish_time"; "year"; "abstract_word_count"] → r.2 !! c = r0.2 !! c) ∧
      Forall (fun c => cell r c = cell r0 c)
             ["title"; "authors"; "journal"; "abstract"; "source"; "source_x"] ∧
      cell r "publish_time" =
        parsed (date_column (frame_of header lines)) (cell r0 "publish_time") ∧
      cell r "year" = year_of (cell r "publish_time") ∧
      cell r "abstract_word_count" =
        Int (Z.of_nat (length (str_split (text_of (cell r0 "abstract"))))).
Proof.
  intros Hread (header' & lines' & Hread' & _ & _ & _ & ->)%load_data_Ok.
  rewrite Hread in Hread'. injection Hread' as <- <-. split; [done|].
  intros r (fields & Hi & Hr & _)%elem_of_cleaned.
  exists fields. split; [done|]. cbv zeta.
  set (r0 := row_of header r.1 fields) in *. set (col := date_column _) in *.
  split; [|split; [|split; [|split]]].
  - intros c Hc. rewrite Hr at 1. by apply derive_row_lookup_other.
  - repeat (apply Forall_cons; split;
            [rewrite Hr at 1; apply derive_row_other; not_in_literals|]).
    apply Forall_nil_2.
  - rewrite Hr at 1. apply derive_row_date.
  - rewrite Hr at 1 2. by rewrite derive_row_year, derive_row_date.
  - rewrite Hr at 1. apply derive_row_word_count.
Qed.


(** ** The claim about the order of rows *)

(** C5. On a table with a numeric [year] column, the selection for the
    range [a, b] returns the rows whose year lies in [a, b] and no others,
    in the order of the table, each as often as the table has it - exactly
    once when the index labels of the table are distinct.  The cleaning
    step keeps the surviving rows in the order of the file: the labels of a
    loaded table are an increasing selection of the line numbers, and its
    rows are the derived rows of those lines, in order. *)
Theorem df_filtered_exact df a b :
  numeric_column df "year" →
  (∃ out, df_filtered df (a, b) = Ok out ∧ columns out = columns df ∧
     rows out `sublist_of` rows df ∧
     (∀ r, r ∈ rows out ↔ r ∈ rows df ∧ ∃ y, cell r "year" = Int y ∧ a ≤ y ≤ b) ∧
     (∀ r y, cell r "year" = Int y → a ≤ y ≤ b →
        length (filter (fun r' => r' = r) (rows out)) =
        length (filter (fun r' => r' = r) (rows df))) ∧
     (NoDup (rows df).*1 →
      ∀ r y, r ∈ rows df → cell r "year" = Int y → a ≤ y ≤ b →
        length (filter (fun r' => r' = r) (rows out)) = 1%nat)) ∧
  (∀ path header lines t,
     read_table path = inr (header, lines) → load_data path = Ok t →
     numeric_column t "year" ∧
     (rows t).*1 `sublist_of` seq 0 (length lines) ∧
     NoDup (rows t).*1 ∧
     rows t `sublist_of`
       (derive_row (date_column (frame_of header lines)) <$> rows (frame_of header lines))).
Proof.
  intros Hnum. split.
  - eexists. split; [by apply df_filtered_Ok|]. cbn [columns rows].
    assert (∀ r y, cell r "year" = Int y → a ≤ y ≤ b →
              length (filter (fun r' => r' = r)
                        (filter (fun r => year_between a b r = true) (rows df))) =
              length (filter (fun r' => r' = r) (rows df))) as Hcount.
    { intros r y Hy Hab. rewrite list_filter_filter. f_equal.
      apply list_filter_iff. intros r'. split; [tauto|].
      intros ->. split; [done|]. apply year_between_spec. eauto. }
    split; [done|]. split; [apply sublist_filter|]. split; [|split; [done|]].
    + intros r. rewrite list_elem_of_filter, year_between_spec. tauto.
    + intros Hnd r y Hr Hy Hab. rewrite (Hcount r y) by done.
      apply count_NoDup; [|done]. by apply NoDup_fmap_1 in Hnd.
  - intros path header lines t Hread Hload.
    split; [by eapply load_data_numeric_year|].
    apply load_data_Ok in Hload as (header' & lines' & Hread' & _ & _ & _ & ->).
    rewrite Hread in Hread'. injection Hread' as <- <-.
    pose proof (labels_cleaned header lines) as Hsub.
    split; [done|]. split; [|apply sublist_filter].
    eapply sublist_NoDup; [apply NoDup_seq | done].
Qed.


End Properties.

(** ** The claims about the selection and the ranking *)

(** C8. The selection is idempotent: selecting the range [a, b] from the
    selection for [a, b] gives that selection again. *)
Theorem df_filtered_idempotent df a b :
  numeric_column df "year" →
  ∃ out, df_filtered df (a, b) = Ok out ∧ df_filtered out (a, b) = Ok out.
Proof.
  intros Hnum. eexists. split; [by apply df_filtered_Ok|].
  rewrite df_filtered_Ok; cbn [columns rows].
  - do 2 f_equal. rewrite list_filter_filter. apply list_filter_iff. tauto.
  - eapply numeric_column_sublist; [done|apply Hnum|].
    intros r [_ Hr]%list_elem_of_filter. done.
Qed.

(** C9. When the range [a, b] lies entirely below or entirely above the
    years present in the table, the selection returns the table with no
    rows; it does not raise. *)
Theorem df_filtered_outside_span df a b :
  numeric_column df "year" →
  outside_span df a b →
  ∃ out, df_filtered df (a, b) = Ok out ∧ rows out = [] ∧ columns out = columns df.
Proof.
  intros Hnum Hout. eexists. split; [by apply df_filtered_Ok|].
  split; [|done]. cbn [rows]. apply elem_of_nil_inv.
  intros r [(y & Hy & Hab)%year_between_spec Hr]%list_elem_of_filter.
  assert (y ∈ years df) as Hin by (apply elem_of_years; eauto).
  destruct Hout as [Hlo|Hhi]; rewrite Forall_forall in *;
    [specialize (Hlo y Hin)|specialize (Hhi y Hin)]; lia.
Qed.



(** C3. On a table with a text column [field], [top_words] returns the
    ranking of the reference token stream - the field of every record,
    null as the empty text, joined by single blanks, lower-cased and split
    on whitespace, with nothing stripped or removed: it is the first [n]
    entries of a list [full] that holds every distinct token once with its
    number of occurrences, and no entry left out has a larger count than
    one returned.  An empty table gives the empty ranking, and when [n] is
    at least the number of distinct tokens all of them are returned, with
    no padding.  The table the program shows, [common_words], is the
    ranking of the titles for [n = 20]. *)
Theorem top_words_reference df field n :
  text_column df field →
  ∃ ranking full,
    words_of df field = Ok (tokens_spec df field) ∧
    top_words df field n = Ok ranking ∧
    ranking = take n full ∧
    full ≡ₚ counts_spec (tokens_spec df field) ∧
    (∀ x y, x ∈ ranking → y ∈ drop n full → (y.2 ≤ x.2)%nat) ∧
    (rows df = [] → ranking = []) ∧
    ((length (distinct (tokens_spec df field)) ≤ n)%nat →
     ranking ≡ₚ counts_spec (tokens_spec df field) ∧
     length ranking = length (distinct (tokens_spec df field))) ∧
    (field = "title"%string → n = 20%nat → common_words df = Ok ranking).
Proof.
  intros Htext. set (toks := tokens_spec df field).
  exists (take n (sorted_desc (Counter toks))), (sorted_desc (Counter toks)).
  assert (sorted_desc (Counter toks) ≡ₚ counts_spec toks) as Hperm.
  { by rewrite sorted_desc_perm, Counter_counts. }
  pose proof (top_words_Ok df field n Htext) as Htop.
  split; [by apply words_of_Ok|]. split; [done|].
  split; [done|]. split; [done|]. split; [|split; [|split]]; [| | |by intros -> ->].
  - intros x y Hx Hy. apply (ranks_before_count toks).
    eapply StronglySorted_app_1_elem_of; [|done..].
    rewrite take_drop. apply ranking_sorted.
  - intros Hrows. subst toks. rewrite tokens_spec_empty by done. apply take_nil.
  - intros Hn. rewrite take_ge.
    + split; [done|]. by rewrite Hperm, length_counts_spec.
    + by rewrite Hperm, length_counts_spec.
Qed.

(** C4. The ranking returned by [top_words] is in descending order of
    count, and entries with equal counts are in the order in which their
    tokens first appear in the token stream. *)
Theorem top_words_order df field n :
  text_column df field →
  ∃ toks ranking,
    words_of df field = Ok toks ∧
    top_words df field n = Ok ranking ∧
    (∀ i j t1 c1 t2 c2,
      ranking !! i = Some (t1, c1) → ranking !! j = Some (t2, c2) → (i < j)%nat →
      (c2 ≤ c1)%nat ∧ (c1 = c2 → (first_index t1 toks < first_index t2 toks)%nat)) ∧
    (field = "title"%string → n = 20%nat → common_words df = Ok ranking).
Proof.
  intros Htext. set (toks := tokens_spec df field).
  exists toks, (take n (sorted_desc (Counter toks))).
  pose proof (top_words_Ok df field n Htext) as Htop.
  split; [by apply words_of_Ok|]. split; [done|]. split; [|by intros -> ->].
  intros i j t1 c1 t2 c2 Hi Hj Hlt.
  assert (ranks_before toks (t1, c1) (t2, c2)) as [H|[H1 H2]].
  { eapply StronglySorted_lookup; [|done..].
    apply StronglySorted_take, ranking_sorted. }
  - simpl in H. split; lia.
  - simpl in H1, H2. split; [lia|done].
Qed.

(** C6. When [n] is at least the number of distinct tokens, the counts of
    the ranking add up to the number of tokens of the field. *)
Theorem top_words_total_count df field n :
  text_column df field →
  (length (distinct (tokens_spec df field)) ≤ n)%nat →
  ∃ toks ranking,
    words_of df field = Ok toks ∧
    top_words df field n = Ok ranking ∧
    total_count ranking = length toks ∧
    (field = "title"%string → n = 20%nat → common_words df = Ok ranking).
Proof.
  intros Htext Hn. set (toks := tokens_spec df field) in *.
  exists toks, (take n (sorted_desc (Counter toks))).
  pose proof (top_words_Ok df field n Htext) as Htop.
  split; [by apply words_of_Ok|]. split; [done|]. split; [|by intros -> ->].
  rewrite take_ge.
  - by rewrite (total_count_perm _ _ (sorted_desc_perm _)), total_count_Counter.
  - by rewrite sorted_desc_perm, Counter_counts, length_counts_spec.
Qed.

(** The table shown by the program is the ranking of the titles, cut at
    twenty entries. *)
Lemma common_words_top_words df : common_words df = top_words df "title" 20.
Proof. done. Qed.

(** ** The claims on the sample file *)

(** Decides a closed decidable statement by evaluation. *)
Ltac by_evaluation :=
  match goal with |- ?P => apply (bool_decide_unpack P); vm_compute; exact I end.

(** The scenarios of the specification, run on the program. *)

Example split_skips_blanks :
  str_split "  Covid   study of 2020 " = ["Covid"; "study"; "of"; "2020"]%string.
Proof. reflexivity. Qed.

(** Five lines, one with an empty title and one with an unparseable date:
    three rows are left, those of lines 0, 1 and 4. *)
Example five_lines_three_rows :
  load_data sample_files iso_date mixed_offsets sample_dtype sample_path = Ok sample_table ∧
  length sample_lines = 5%nat ∧ (rows sample_table).*1 = [0; 1; 4]%nat.
Proof. split; [|split]; vm_compute; reflexivity. Qed.

(** Years 2019, 2020, 2020, 2021: the range 2020..2020 selects two rows. *)
Example two_rows_of_2020 :
  (df ← load_data sample_files iso_date mixed_offsets sample_dtype "four_years.csv";
   out ← df_filtered df (2020, 2020);
   Ok ((rows out).*1)) = Ok [1; 2]%nat.
Proof. vm_compute. reflexivity. Qed.

(** The titles "Covid study", "covid Vaccine", "Vaccine trial": six
    tokens, and the two most common are covid and vaccine, in that order. *)
Example titles_top_two :
  words_of sample_table "title" =
    Ok ["covid"; "study"; "covid"; "vaccine"; "vaccine"; "trial"]%string ∧
  top_words sample_table "title" 2 = Ok [("covid", 2); ("vaccine", 2)]%string%nat.
Proof. split; vm_compute; reflexivity. Qed.

(** A file with a header and no lines: an empty table, an empty ranking. *)
Example header_only_file :
  (df ← load_data sample_files iso_date mixed_offsets sample_dtype "header_only.csv";
   cw ← common_words df;
   Ok (rows df, cw)) = Ok ([], []).
Proof. vm_compute. reflexivity. Qed.

(** Abstracts that are all numbers are read as numbers, and line 23
    raises; with a word in one of them the column is text, and "12345"
    counts as one word. *)
Example numeric_abstracts :
  load_data more_files iso_date mixed_offsets sample_dtype "numeric_abstract.csv" =
    Raise AttributeError ∧
  (df ← load_data more_files iso_date mixed_offsets sample_dtype "mostly_numeric.csv";
   Ok ((fun r => cell r "abstract_word_count") <$> rows df)) = Ok [Int 1; Int 2].
Proof. split; vm_compute; reflexivity. Qed.

(** Columns of numbers, of booleans, and of text. *)
Example dtype_samples :
  sample_dtype [Str "12345"; NaN; Str "-2.5e3"; Str " 7 "; Str "inf"] = false ∧
  sample_dtype [Str "True"; Str "false"; NaN] = false ∧
  sample_dtype [NaN; NaN] = false ∧
  sample_dtype [Str "12345"; Str "678 cases"] = true ∧
  sample_dtype [Str "1"; Str "True"] = true ∧
  sample_dtype [Str "1e"; Str "2"] = true.
Proof. repeat split; vm_compute; reflexivity. Qed.

(** Dates in two time zones make no datetime column: lines 20-21 raise. *)
Example dates_in_two_time_zones :
  mixed_offsets (date_column (frame_of short_header two_offsets_lines)) =
    Some AttributeError ∧
  load_data more_files iso_date mixed_offsets sample_dtype "two_offsets.csv" =
    Raise AttributeError.
Proof. split; vm_compute; reflexivity. Qed.

Lemma load_data_essential_fields_witness :
  sample_files sample_path = inr (sample_header, sample_lines) ∧
  load_data sample_files iso_date mixed_offsets sample_dtype sample_path = Ok sample_table ∧
  (∀ r, r ∈ rows sample_table →
     ∃ s t, cell r "title" = Str s ∧ s ≠ EmptyString ∧
            cell r "publish_time" = Datetime t ∧ cell r "year" = Int (ts_year t)) ∧
  (2%nat ∉ (rows sample_table).*1) ∧ (3%nat ∉ (rows sample_table).*1).
Proof.
  assert (sample_files sample_path = inr (sample_header, sample_lines)) as Hread
    by reflexivity.
  assert (load_data sample_files iso_date mixed_offsets sample_dtype sample_path = Ok sample_table) as Hload
    by (vm_compute; reflexivity).
  destruct (load_data_essential_fields sample_files iso_date mixed_offsets sample_dtype sample_path
              sample_header sample_lines sample_table Hread Hload) as [Hrows Hout].
  split; [done|]. split; [done|]. split; [|split].
  - intros r Hr. destruct (Hrows r Hr) as (s & t & fields & _ & _ & ? & ? & _ & ? & ?).
    by exists s, t.
  - eapply (Hout 2%nat); [reflexivity|]. right; left. reflexivity.
  - eapply (Hout 3%nat); [reflexivity|]. right; right. vm_compute. reflexivity.
Defined.




Lemma load_data_frame_witness :
  sample_files sample_path = inr (sample_header, sample_lines) ∧
  load_data sample_files iso_date mixed_offsets sample_dtype sample_path = Ok sample_table ∧
  columns sample_table =
    ["title"; "authors"; "journal"; "abstract"; "publish_time"; "year";
     "abstract_word_count"]%string ∧
  ∀ r, r ∈ rows sample_table →
    ∃ fields, sample_lines !! r.1 = Some fields ∧
      Forall (fun c => cell r c = cell (row_of sample_header r.1 fields) c)
             ["title"; "authors"; "journal"; "abstract"; "source"; "source_x"]%string.
Proof.
  assert (sample_files sample_path = inr (sample_header, sample_lines)) as Hread
    by reflexivity.
  assert (load_data sample_files iso_date mixed_offsets sample_dtype sample_path = Ok sample_table) as Hload
    by (vm_compute; reflexivity).
  destruct (load_data_frame sample_files iso_date mixed_offsets sample_dtype sample_path
              sample_header sample_lines sample_table Hread Hload) as [Hcols Hrows].
  split; [done|]. split; [done|]. split; [by rewrite Hcols|].
  intros r Hr. destruct (Hrows r Hr) as (fields & Hi & _ & Hsame & _).
  by exists fields.
Defined.

Lemma df_filtered_exact_witness :
  numeric_column sample_table "year" ∧
  ∃ out, df_filtered sample_table (2020, 2021) = Ok out ∧
         rows out `sublist_of` rows sample_table ∧
         (rows out).*1 = [1; 4]%nat ∧
         (rows sample_table).*1 `sublist_of` seq 0 (length sample_lines).
Proof.
  assert (numeric_column sample_table "year") as Hnum by by_evaluation.
  destruct (df_filtered_exact sample_files iso_date mixed_offsets sample_dtype sample_table 2020 2021 Hnum)
    as [(out & Hout & _ & Hsub & _) Hclean].
  split; [done|]. exists out. split; [done|]. split; [done|]. split.
  - vm_compute in Hout. injection Hout as <-. reflexivity.
  - eapply (Hclean sample_path sample_header sample_lines sample_table).
    + reflexivity.
    + vm_compute. reflexivity.
Defined.

Lemma df_filtered_idempotent_witness :
  numeric_column sample_table "year" ∧
  ∃ out, df_filtered sample_table (2020, 2021) = Ok out ∧
         df_filtered out (2020, 2021) = Ok out.
Proof.
  assert (numeric_column sample_table "year") as Hnum by by_evaluation.
  split; [done|]. exact (df_filtered_idempotent sample_table 2020 2021 Hnum).
Defined.

Lemma df_filtered_outside_span_witness :
  numeric_column sample_table "year" ∧
  outside_span sample_table 1900 1950 ∧
  ∃ out, df_filtered sample_table (1900, 1950) = Ok out ∧ rows out = [] ∧
         columns out = columns sample_table.
Proof.
  assert (numeric_column sample_table "year") as Hnum by by_evaluation.
  assert (outside_span sample_table 1900 1950) as Hout by by_evaluation.
  split; [done|]. split; [done|].
  exact (df_filtered_outside_span sample_table 1900 1950 Hnum Hout).
Defined.

Lemma top_words_reference_witness :
  text_column sample_table "title" ∧
  ∃ ranking full,
    top_words sample_table "title" 2 = Ok ranking ∧
    ranking = take 2 full ∧
    full ≡ₚ counts_spec (tokens_spec sample_table "title") ∧
    ranking = [("covid", 2); ("vaccine", 2)]%string%nat.
Proof.
  assert (text_column sample_table "title") as Htext by by_evaluation.
  destruct (top_words_reference sample_table "title" 2 Htext)
    as (ranking & full & _ & Htop & Htake & Hperm & _).
  split; [done|]. exists ranking, full. split; [done|]. split; [done|]. split; [done|].
  vm_compute in Htop. by injection Htop as <-.
Defined.

Lemma top_words_order_witness :
  text_column sample_selection "title" ∧
  ∃ toks ranking,
    words_of sample_selection "title" = Ok toks ∧
    top_words sample_selection "title" 20 = Ok ranking ∧
    ranking = [("vaccine", 2); ("covid", 1); ("trial", 1)]%string%nat ∧
    (first_index "covid" toks < first_index "trial" toks)%nat.
Proof.
  assert (text_column sample_selection "title") as Htext by by_evaluation.
  destruct (top_words_order sample_selection "title" 20 Htext)
    as (toks & ranking & Hall & Htop & Horder & _).
  split; [done|]. exists toks, ranking. split; [done|]. split; [done|].
  assert (ranking = [("vaccine", 2); ("covid", 1); ("trial", 1)]%string%nat) as ->.
  { vm_compute in Htop. by injection Htop as <-. }
  split; [done|].
  destruct (Horder 1%nat 2%nat "covid"%string 1%nat "trial"%string 1%nat)
    as [_ Hfirst]; [reflexivity | reflexivity | lia |].
  by apply Hfirst.
Defined.

Lemma top_words_total_count_witness :
  text_column sample_table "title" ∧
  (length (distinct (tokens_spec sample_table "title")) ≤ 20)%nat ∧
  ∃ toks ranking,
    words_of sample_table "title" = Ok toks ∧
    top_words sample_table "title" 20 = Ok ranking ∧
    total_count ranking = length toks ∧ length toks = 6%nat.
Proof.
  assert (text_column sample_table "title") as Htext by by_evaluation.
  assert (length (distinct (tokens_spec sample_table "title")) ≤ 20)%nat as Hn
    by (vm_compute; lia).
  destruct (top_words_total_count sample_table "title" 20 Htext Hn)
    as (toks & ranking & Hall & Htop & Hsum & _).
  split; [done|]. split; [done|]. exists toks, ranking.
  split; [done|]. split; [done|]. split; [done|].
  vm_compute in Hall. by injection Hall as <-.
Defined.

(** ** Further properties: Python text *)

Lemma isspace_lower_char c : isspace (lower_char c) = isspace c.
Proof. destruct c as [[] [] [] [] [] [] [] []]; reflexivity. Qed.

Lemma lower_char_idem c : lower_char (lower_char c) = lower_char c.
Proof. destruct c as [[] [] [] [] [] [] [] []]; reflexivity. Qed.

Lemma str_lower_idem s : str_lower (str_lower s) = str_lower s.
Proof. induction s as [|c s IH]; simpl; [done|]. by rewrite lower_char_idem, IH. Qed.

Lemma split_go_lower cur s :
  split_go (str_lower cur) (str_lower s) = str_lower <$> split_go cur s.
Proof.
  revert cur. induction s as [|c s IH]; intros cur; cbn [split_go str_lower].
  - by destruct cur.
  - rewrite isspace_lower_char. destruct (isspace c).
    + destruct cur as [|x cur]; cbn [str_lower]; [apply (IH EmptyString)|].
      rewrite fmap_cons. f_equal. apply (IH EmptyString).
    + by rewrite <- IH, str_lower_app.
Qed.

Lemma no_space_app a b : no_space (a +:+ b) = no_space a && no_space b.
Proof.
  induction a as [|c a IH]; [done|].
  change (negb (isspace c) && no_space (a +:+ b) =
          negb (isspace c) && no_space a && no_space b).
  by rewrite IH, andb_assoc.
Qed.

Lemma split_go_clean cur s :
  no_space cur = true →
  Forall (fun t => t ≠ EmptyString ∧ no_space t = true) (split_go cur s).
Proof.
  revert cur. induction s as [|c s IH]; intros cur Hcur; simpl.
  - destruct cur; [constructor|]. by repeat constructor.
  - destruct (isspace c) eqn:Hc.
    + destruct cur; [by apply IH|]. constructor; [done | by apply IH].
    + apply IH. rewrite no_space_app, Hcur. simpl. by rewrite Hc.
Qed.

Lemma string_app_nil_r (s : string) : s +:+ EmptyString = s.
Proof.
  induction s as [|c s IH]; [done|].
  change (String c (s +:+ EmptyString) = String c s). by f_equal.
Qed.

Lemma string_app_snoc (a : string) c b :
  (a +:+ String c EmptyString) +:+ b = a +:+ String c b.
Proof.
  induction a as [|x a IH]; [done|].
  change (String x ((a +:+ String c EmptyString) +:+ b) = String x (a +:+ String c b)).
  by f_equal.
Qed.

Lemma split_go_word cur w :
  no_space w = true →
  split_go cur w = match cur +:+ w with EmptyString => [] | t => [t] end.
Proof.
  revert cur. induction w as [|c w IH]; intros cur Hw; simpl.
  - rewrite string_app_nil_r. by destruct cur.
  - simpl in Hw. apply andb_true_iff in Hw as [Hc Hw].
    apply negb_true_iff in Hc. rewrite Hc, IH by done.
    by rewrite string_app_snoc.
Qed.

Lemma str_split_word w :
  w ≠ EmptyString → no_space w = true → str_split w = [w].
Proof.
  intros Hne Hw. unfold str_split. rewrite split_go_word by done. simpl.
  by destruct w.
Qed.

(** X16. The tokens of a split are never empty and hold no whitespace. *)
Theorem str_split_tokens_clean s t :
  t ∈ str_split s → t ≠ EmptyString ∧ no_space t = true.
Proof.
  intros Ht. pose proof (split_go_clean EmptyString s eq_refl) as H.
  rewrite Forall_forall in H. by apply H.
Qed.

(** X17. Splitting undoes joining with a blank: a list of words, none
    empty and none with whitespace inside, comes back as it was. *)
Theorem str_split_join_roundtrip (ws : list string) :
  Forall (fun w => w ≠ EmptyString ∧ no_space w = true) ws →
  str_split (str_join " " ws) = ws.
Proof.
  unfold str_join. induction ws as [|w [|w' ws] IH]; intros Hws; [done| |].
  - apply Forall_cons in Hws as [[Hne Hw] _]. simpl. by apply str_split_word.
  - apply Forall_cons in Hws as [[Hne Hw] Hws].
    change (String.concat " " (w :: w' :: ws))
      with (w +:+ String " " (String.concat " " (w' :: ws))).
    rewrite str_split_app_space, IH, str_split_word by done. done.
Qed.

(** Lower-casing before splitting gives the lower-cased tokens of the
    text: the case of a letter never moves a word boundary. *)
Lemma str_split_lower s : str_split (str_lower s) = str_lower <$> str_split s.
Proof. apply (split_go_lower EmptyString). Qed.

(** ** Further properties: the selection *)

Lemma traverse_Raise {A B} (f : A -> result B) l e :
  traverse f l = Raise e → ∃ x, x ∈ l ∧ f x = Raise e.
Proof.
  induction l as [|x l IH]; cbn [traverse]; [done|].
  destruct (f x) as [y|e'] eqn:Hx; cbn [mbind result_bind].
  - destruct (traverse f l) as [ys|e'] eqn:Hl; cbn [mbind result_bind]; [done|].
    intros [= ->]. destruct IH as (x' & ? & ?); [done|].
    exists x'. split; [by right | done].
  - intros [= ->]. exists x. split; [by left | done].
Qed.

Lemma traverse_Ok_elem {A B} (f : A -> result B) l l' x :
  traverse f l = Ok l' → x ∈ l → ∃ y, f x = Ok y.
Proof.
  intros H%traverse_Ok_Forall2 Hx. revert Hx.
  induction H as [|x' y l l' Hx' _ IH]; intros Hx; [by apply elem_of_nil in Hx|].
  apply elem_of_cons in Hx as [->|Hx]; eauto.
Qed.

Lemma compare_with_numeric op k (s : Series) :
  match compare_with op k s with
  | Ok _ => Forall (fun v => is_numeric v = true) s
  | Raise e => e = TypeError ∧ ¬ Forall (fun v => is_numeric v = true) s
  end.
Proof.
  unfold compare_with.
  destruct (traverse _ s) as [m|e] eqn:H.
  - apply Forall_forall. intros v Hv.
    destruct (traverse_Ok_elem _ _ _ _ H Hv) as [y Hy]. by destruct v.
  - apply traverse_Raise in H as (v & Hv & Hf).
    split; [by destruct v; simplify_eq|].
    rewrite Forall_forall. intros Hall. specialize (Hall v Hv). by destruct v.
Qed.

Lemma numeric_column_cells df c :
  numeric_column df c ↔
  c ∈ columns df ∧ Forall (fun v => is_numeric v = true) ((fun r => cell r c) <$> rows df).
Proof. unfold numeric_column. by rewrite Forall_fmap. Qed.

(** X5. The selection returns a table exactly when the table has a [year]
    column of integers (some possibly missing); it raises [KeyError] exactly
    when there is no [year] column, and [TypeError] exactly when the column
    holds something else than integers. *)
Theorem df_filtered_outcome df a b :
  (numeric_column df "year" ↔ ∃ out, df_filtered df (a, b) = Ok out) ∧
  ("year" ∉ columns df ↔ df_filtered df (a, b) = Raise (KeyError ["year"%string])) ∧
  ("year" ∈ columns df ∧ ¬ numeric_column df "year" ↔
   df_filtered df (a, b) = Raise TypeError).
Proof.
  destruct (decide ("year" ∈ columns df)) as [Hc|Hc].
  - destruct (decide (numeric_column df "year")) as [Hnum|Hnum].
    + rewrite df_filtered_Ok by done. split; [|split].
      * split; [eauto | done].
      * split; [done | discriminate].
      * split; [by intros [_ ?] | discriminate].
    + assert (df_filtered df (a, b) = Raise TypeError) as ->.
      { unfold df_filtered. rewrite getitem_Ok by done. cbn [mbind result_bind fst].
        pose proof (compare_with_numeric Z.geb a ((fun r => cell r "year") <$> rows df)) as H.
        destruct (compare_with Z.geb a _) as [m|e].
        - destruct Hnum. by apply numeric_column_cells.
        - by destruct H as [-> _]. }
      split; [|split].
      * split; [done | by intros [out ?]].
      * split; [done | discriminate].
      * done.
  - assert (df_filtered df (a, b) = Raise (KeyError ["year"%string])) as ->.
    { unfold df_filtered. by rewrite getitem_KeyError. }
    split; [|split].
    + split; [by intros [? _] | by intros [out ?]].
    + done.
    + split; [by intros [? _] | discriminate].
Qed.

(** X6. Selecting a range from a selection selects the overlap of the two
    ranges from the table, so two selections give the same table in either
    order. *)
Theorem df_filtered_compose df a b c d :
  numeric_column df "year" →
  ∃ d1 d2 d3,
    df_filtered df (a, b) = Ok d1 ∧ df_filtered d1 (c, d) = Ok d2 ∧
    df_filtered df (Z.max a c, Z.min b d) = Ok d2 ∧
    df_filtered df (c, d) = Ok d3 ∧ df_filtered d3 (a, b) = Ok d2.
Proof.
  intros Hnum.
  assert (∀ x y, numeric_column
            (mkFrame (columns df) (filter (fun r => year_between x y r = true) (rows df)))
            "year") as Hsel.
  { intros x y. eapply numeric_column_sublist; [done|apply Hnum|].
    by intros r [_ Hr]%list_elem_of_filter. }
  exists (mkFrame (columns df) (filter (fun r => year_between a b r = true) (rows df))),
         (mkFrame (columns df)
            (filter (fun r => year_between (Z.max a c) (Z.min b d) r = true) (rows df))),
         (mkFrame (columns df) (filter (fun r => year_between c d r = true) (rows df))).
  rewrite !df_filtered_Ok by done. cbn [columns rows].
  rewrite !list_filter_filter.
  assert (∀ r, year_between (Z.max a c) (Z.min b d) r = true ↔
               year_between c d r = true ∧ year_between a b r = true) as Hboth.
  { intros r. rewrite !year_between_spec. split.
    - intros (y & Hy & ?). split; exists y; (split; [done|lia]).
    - intros [(y & Hy & ?) (y' & Hy' & ?)]. rewrite Hy in Hy'. injection Hy' as <-.
      exists y. split; [done|lia]. }
  split; [done|]. split; [|split; [done|split; [done|]]].
  - do 2 f_equal. apply list_filter_iff. intros r. by rewrite Hboth.
  - do 2 f_equal. apply list_filter_iff. intros r. rewrite Hboth. tauto.
Qed.

(** X7. Narrowing the range only removes rows: the selection for a range
    inside another is a sub-list of the selection for the wider one. *)
Theorem df_filtered_monotone df a b a' b' :
  numeric_column df "year" → a' ≤ a → b ≤ b' →
  ∃ narrow wide,
    df_filtered df (a, b) = Ok narrow ∧ df_filtered df (a', b') = Ok wide ∧
    rows narrow `sublist_of` rows wide.
Proof.
  intros Hnum Ha Hb. do 2 eexists.
  split; [by apply df_filtered_Ok|]. split; [by apply df_filtered_Ok|].
  cbn [rows].
  assert (filter (fun r => year_between a b r = true) (rows df) =
          filter (fun r => year_between a b r = true)
            (filter (fun r => year_between a' b' r = true) (rows df))) as ->.
  { rewrite list_filter_filter. apply list_filter_iff. intros r.
    rewrite !year_between_spec. split; [|tauto].
    intros (y & Hy & ?). split; exists y; (split; [done|lia]). }
  apply sublist_filter.
Qed.

(** X8. A range given upside down (its lower end above its upper end)
    selects nothing, and raises nothing. *)
Theorem df_filtered_inverted_range df a b :
  numeric_column df "year" → b < a →
  ∃ out, df_filtered df (a, b) = Ok out ∧ rows out = [] ∧ columns out = columns df.
Proof.
  intros Hnum Hab. eexists. split; [by apply df_filtered_Ok|].
  split; [|done]. cbn [rows]. apply elem_of_nil_inv.
  intros r [(y & _ & ?)%year_between_spec _]%list_elem_of_filter. lia.
Qed.

(** ** Further properties: the bounds of the slider *)

Lemma omap_id_fmap {A B} (f : A -> option B) (l : list A) :
  omap id (f <$> l) = omap f l.
Proof.
  induction l as [|x l IH]; [done|].
  rewrite fmap_cons. cbn [omap list_omap]. rewrite IH. by destruct (f x).
Qed.

Lemma numeric_cells_Ok df :
  numeric_column df "year" →
  traverse numeric_cell ((fun r => cell r "year") <$> rows df) = Ok (year_cell <$> rows df).
Proof.
  intros [_ H]%numeric_column_alt. apply traverse_fmap_Ok. intros r Hr.
  unfold year_cell. destruct (H r Hr) as [->|[z ->]]; done.
Qed.

Lemma series_min_years df :
  numeric_column df "year" →
  getitem df "year" ≫= series_min =
  Ok (match years df with [] => None | z :: zs => Some (foldr Z.min z zs) end).
Proof.
  intros Hnum. rewrite getitem_Ok by apply Hnum. cbn [mbind result_bind].
  unfold series_min. rewrite numeric_cells_Ok by done. cbn [mbind result_bind].
  by rewrite omap_id_fmap.
Qed.

Lemma series_max_years df :
  numeric_column df "year" →
  getitem df "year" ≫= series_max =
  Ok (match years df with [] => None | z :: zs => Some (foldr Z.max z zs) end).
Proof.
  intros Hnum. rewrite getitem_Ok by apply Hnum. cbn [mbind result_bind].
  unfold series_max. rewrite numeric_cells_Ok by done. cbn [mbind result_bind].
  by rewrite omap_id_fmap.
Qed.

Lemma foldr_min_spec z zs :
  foldr Z.min z zs ∈ z :: zs ∧ ∀ y, y ∈ z :: zs → foldr Z.min z zs ≤ y.
Proof.
  induction zs as [|x zs [IHin IHle]]; simpl.
  - split; [by left|]. intros y ->%list_elem_of_singleton. lia.
  - split.
    + destruct (Z.min_spec x (foldr Z.min z zs)) as [[_ ->]|[_ ->]].
      * right. by left.
      * apply elem_of_cons in IHin as [->|?]; [by left|]. right. by right.
    + intros y Hy. assert (y = x ∨ y ∈ z :: zs) as [->|Hy'].
      { apply elem_of_cons in Hy as [->|Hy]; [right; by left|].
        apply elem_of_cons in Hy as [->|Hy]; [by left|]. right. by right. }
      * lia.
      * specialize (IHle y Hy'). lia.
Qed.

Lemma foldr_max_spec z zs :
  foldr Z.max z zs ∈ z :: zs ∧ ∀ y, y ∈ z :: zs → y ≤ foldr Z.max z zs.
Proof.
  induction zs as [|x zs [IHin IHle]]; simpl.
  - split; [by left|]. intros y ->%list_elem_of_singleton. lia.
  - split.
    + destruct (Z.max_spec x (foldr Z.max z zs)) as [[_ ->]|[_ ->]].
      * apply elem_of_cons in IHin as [->|?]; [by left|]. right. by right.
      * right. by left.
    + intros y Hy. assert (y = x ∨ y ∈ z :: zs) as [->|Hy'].
      { apply elem_of_cons in Hy as [->|Hy]; [right; by left|].
        apply elem_of_cons in Hy as [->|Hy]; [by left|]. right. by right. }
      * lia.
      * specialize (IHle y Hy'). lia.
Qed.

(** The bounds of the slider, on a table with a numeric [year] column. *)
Lemma slider_bounds_years df :
  numeric_column df "year" →
  slider_bounds df =
  match years df with
  | [] => inl ValueError
  | z :: zs => inr (foldr Z.min z zs, foldr Z.max z zs)
  end.
Proof.
  intros Hnum. unfold slider_bounds.
  rewrite series_min_years, series_max_years by done.
  by destruct (years df).
Qed.

(** ** Further properties: counting the values of a column *)

Lemma unique_counts_snoc l v :
  fold_left (fun c v => count_value v c) (l ++ [v]) [] =
  count_value v (fold_left (fun c v => count_value v c) l []).
Proof. by rewrite fold_left_app. Qed.

Lemma count_of_count_value k v c :
  count_of k (count_value v c) =
  if decide (v = k) then S (count_of k c) else count_of k c.
Proof.
  induction c as [|[k' n] c IH]; cbn [count_value count_of].
  - destruct (decide (v = k)); done.
  - destruct (decide (k' = v)) as [->|Hne]; cbn [count_of].
    + destruct (decide (v = k)); done.
    + rewrite IH. destruct (decide (k' = k)) as [->|?]; [|done].
      by rewrite decide_False by done.
Qed.

Lemma keys_count_value v c :
  (count_value v c).*1 = if decide (v ∈ c.*1) then c.*1 else c.*1 ++ [v].
Proof.
  induction c as [|[k n] c IH]; cbn [count_value].
  - by rewrite decide_False by (by intros ?%elem_of_nil).
  - destruct (decide (k = v)) as [->|Hne]; rewrite !fmap_cons; cbn [fst].
    + by rewrite decide_True by left.
    + rewrite IH. destruct (decide (v ∈ c.*1)) as [Hin|Hin].
      * by rewrite decide_True by (by right).
      * rewrite decide_False; [done|]. rewrite elem_of_cons. naive_solver.
Qed.

Lemma total_count_value v c :
  sum_list (count_value v c).*2 = S (sum_list c.*2).
Proof.
  induction c as [|[k n] c IH]; [done|].
  cbn [count_value]. case_decide; csimpl; [done|]. rewrite IH. lia.
Qed.

(** In a table of counts with distinct labels, the entries are the labels
    with the counts given to them. *)
Lemma elem_of_counts (c : list (value * nat)) k n :
  NoDup c.*1 → (k, n) ∈ c ↔ k ∈ c.*1 ∧ n = count_of k c.
Proof.
  induction c as [|[k' n'] c IH]; intros Hnd.
  - split; [by intros ?%elem_of_nil | by intros [?%elem_of_nil _]].
  - rewrite fmap_cons in Hnd. apply NoDup_cons in Hnd as [Hk' Hnd].
    rewrite fmap_cons, !elem_of_cons. cbn [count_of fst].
    destruct (decide (k' = k)) as [->|Hne].
    + split.
      * intros [[= <-]|Hin]; [auto|].
        destruct Hk'. apply list_elem_of_fmap. by exists (k, n).
      * intros [_ ->]. by left.
    + rewrite IH by done. split.
      * intros [[= -> ->]|[? ?]]; [done | auto].
      * intros [[->|?] ->]; [done | auto].
Qed.

Lemma count_of_not_in k (c : list (value * nat)) : k ∉ c.*1 → count_of k c = 0%nat.
Proof.
  induction c as [|[k' n'] c IH]; [done|]. rewrite fmap_cons, not_elem_of_cons.
  intros [Hne Hk]. cbn [count_of]. rewrite decide_False by done. by apply IH.
Qed.

Section counting.

Implicit Types l : list value.

Let uc l := fold_left (fun c v => count_value v c) l [].

Lemma uc_keys l : NoDup (uc l).*1 ∧ ∀ k, k ∈ (uc l).*1 ↔ k ∈ l.
Proof.
  induction l as [|v l [IHnd IHin]] using rev_ind.
  - split; [constructor | done].
  - unfold uc. rewrite unique_counts_snoc. fold (uc l). rewrite keys_count_value.
    destruct (decide (v ∈ (uc l).*1)) as [Hin|Hin].
    + split; [done|]. intros k. rewrite elem_of_app, list_elem_of_singleton, IHin.
      split; [auto|]. intros [?| ->]; [done | by apply IHin].
    + split.
      * apply NoDup_app. split; [done|]. split; [|apply NoDup_singleton].
        intros k Hk ->%list_elem_of_singleton. done.
      * intros k. by rewrite !elem_of_app, IHin.
Qed.

Lemma uc_count l k : count_of k (uc l) = length (filter (fun v => v = k) l).
Proof.
  induction l as [|v l IH] using rev_ind; [done|].
  unfold uc. rewrite unique_counts_snoc. fold (uc l).
  rewrite count_of_count_value, IH, filter_app, length_app, filter_cons, filter_nil.
  destruct (decide (v = k)); simpl; lia.
Qed.

Lemma uc_total l : sum_list (uc l).*2 = length l.
Proof.
  induction l as [|v l IH] using rev_ind; [done|].
  unfold uc. rewrite unique_counts_snoc. fold (uc l).
  rewrite total_count_value, IH, length_app. simpl. lia.
Qed.

End counting.

Lemma filter_eq_dropna (s : Series) k :
  isna k = false →
  filter (fun v => v = k) (dropna_series s) = filter (fun v => v = k) s.
Proof.
  intros Hk. unfold dropna_series. rewrite list_filter_filter.
  apply list_filter_iff. intros v. split; [tauto|]. by intros ->.
Qed.

Lemma length_filter_fmap {A B} (f : A -> B) (P : B -> Prop) `{∀ x, Decision (P x)} l :
  length (filter P (f <$> l)) = length (filter (fun x => P (f x)) l).
Proof.
  induction l as [|x l IH]; [done|].
  rewrite fmap_cons, !filter_cons. destruct (decide (P (f x))); simpl; by rewrite IH.
Qed.

(** The counting pass of [value_counts]: distinct labels, none missing,
    each with the number of cells that hold it. *)
Lemma unique_counts_spec (s : Series) :
  NoDup (unique_counts s).*1 ∧
  (∀ k n, (k, n) ∈ unique_counts s ↔
          isna k = false ∧ (1 ≤ n)%nat ∧ n = length (filter (fun v => v = k) s)) ∧
  sum_list (unique_counts s).*2 = length (dropna_series s).
Proof.
  unfold unique_counts.
  destruct (uc_keys (dropna_series s)) as [Hnd Hin].
  split; [done|]. split; [|apply uc_total].
  intros k n. rewrite elem_of_counts by done. rewrite Hin, uc_count.
  unfold dropna_series at 1. rewrite list_elem_of_filter. split.
  - intros [[Hk Hks] ->]. rewrite filter_eq_dropna by done. split; [done|]. split; [|done].
    assert (k ∈ filter (fun v => v = k) s) as Hk' by (by apply list_elem_of_filter).
    destruct (filter (fun v => v = k) s); [by apply elem_of_nil in Hk'|]. simpl. lia.
  - intros (Hk & Hn & ->). rewrite filter_eq_dropna by done. split; [|done].
    split; [done|].
    destruct (filter (fun v => v = k) s) as [|v l] eqn:E; [simpl in Hn; lia|].
    assert (v ∈ filter (fun v => v = k) s) as [-> ?]%list_elem_of_filter; [|done].
    rewrite E. by left.
Qed.

(** ** Further properties: the views *)

Lemma df_filtered_inv df a b out :
  df_filtered df (a, b) = Ok out →
  numeric_column df "year" ∧
  out = mkFrame (columns df) (filter (fun r => year_between a b r = true) (rows df)).
Proof.
  intros H. destruct (decide ("year" ∈ columns df)) as [Hc|Hc]; cycle 1.
  { unfold df_filtered in H. by rewrite getitem_KeyError in H. }
  destruct (decide (numeric_column df "year")) as [Hnum|Hnum].
  - rewrite df_filtered_Ok in H by done. by injection H as <-.
  - unfold df_filtered in H. rewrite getitem_Ok in H by done.
    cbn [mbind result_bind fst] in H.
    pose proof (compare_with_numeric Z.geb a ((fun r => cell r "year") <$> rows df)) as Hcmp.
    destruct (compare_with Z.geb a _) as [m|e]; [|done].
    destruct Hnum. by apply numeric_column_cells.
Qed.

Lemma filter_all {A} (P : A -> Prop) `{∀ x, Decision (P x)} (l : list A) :
  (∀ x, x ∈ l → P x) → filter P l = l.
Proof.
  induction l as [|x l IH]; intros Hl; [done|].
  rewrite filter_cons_True by (apply Hl; by left).
  f_equal. apply IH. intros y Hy. apply Hl. by right.
Qed.

Lemma insert_key_perm x l : insert_key x l ≡ₚ x :: l.
Proof.
  induction l as [|y l IH]; simpl; [done|].
  destruct (key_leb x.1 y.1); [done|]. rewrite IH. apply perm_swap.
Qed.

Lemma sort_keys_perm l : foldr insert_key [] l ≡ₚ l.
Proof.
  induction l as [|x l IH]; simpl; [done|]. by rewrite insert_key_perm, IH.
Qed.

Lemma insert_key_sorted x l :
  int_key x → Forall int_key l →
  StronglySorted year_not_after l → StronglySorted year_not_after (insert_key x l).
Proof.
  intros [a Ha] Hl Hs. induction Hs as [|y l Hs IH Hy]; simpl.
  - repeat constructor.
  - apply Forall_cons in Hl as [[b Hb] Hl].
    rewrite Ha, Hb. cbn [key_leb]. destruct (a <=? b) eqn:E.
    + apply Z.leb_le in E. constructor; [by constructor|].
      constructor; [by exists a, b|].
      rewrite Forall_forall in *. intros z Hz.
      destruct (Hy z Hz) as (b' & c & Hb' & Hc & ?).
      rewrite Hb in Hb'. injection Hb' as <-. exists a, c. split; [done|]. split; [done|lia].
    + apply Z.leb_gt in E. constructor; [by apply IH|].
      rewrite insert_key_perm. constructor; [|done].
      exists b, a. split; [done|]. split; [done|lia].
Qed.

Lemma sort_keys_sorted l :
  Forall int_key l → StronglySorted year_not_after (foldr insert_key [] l).
Proof.
  induction l as [|x l IH]; intros Hl; simpl; [constructor|].
  apply Forall_cons in Hl as [Hx Hl].
  apply insert_key_sorted; [done| |by apply IH]. by rewrite sort_keys_perm.
Qed.

Lemma sorted_strict (l : list (value * nat)) :
  NoDup l.*1 → StronglySorted year_not_after l → StronglySorted year_before l.
Proof.
  intros Hnd Hs. induction Hs as [|x l Hs IH Hx]; [constructor|].
  rewrite fmap_cons in Hnd. apply NoDup_cons in Hnd as [Hx' Hnd].
  constructor; [by apply IH|].
  rewrite Forall_forall in *. intros y Hy.
  destruct (Hx y Hy) as (a & b & Ha & Hb & Hab).
  exists a, b. split; [done|]. split; [done|].
  destruct (decide (a = b)) as [->|]; [|lia].
  destruct Hx'. apply list_elem_of_fmap. exists y. split; [|done]. congruence.
Qed.

Lemma sort_index_int_keys l :
  Forall int_key l → sort_index l = Ok (foldr insert_key [] l).
Proof.
  intros Hl. unfold sort_index. destruct l as [|x l']; [done|].
  assert (forallb (fun y => same_kind x.1 y.1) (x :: l') = true) as ->; [|done].
  apply forallb_forall. intros y Hy%list_elem_of_In.
  rewrite Forall_forall in Hl.
  destruct (Hl x) as [a ->]; [by left|]. by destruct (Hl y Hy) as [b ->].
Qed.

Section ViewsProperties.

Variable sort_values : list (value * nat) -> list (value * nat).
Hypothesis sort_values_perm : ∀ c, sort_values c ≡ₚ c.

(** X11. The publications-by-year table of a selection has one entry per
    year present, in ascending order of year, each within the range
    selected and with the number of papers of that year; the numbers add up
    to the number of papers shown. *)
Theorem year_counts_correct df a b out :
  df_filtered df (a, b) = Ok out →
  ∃ yc, year_counts sort_values out = Ok yc ∧
    StronglySorted year_before yc ∧
    (∀ k n, (k, n) ∈ yc ↔
            ∃ y, k = Int y ∧ (1 ≤ n)%nat ∧ n = rows_with "year" (Int y) out) ∧
    (∀ y n, (Int y, n) ∈ yc → a ≤ y ≤ b) ∧
    sum_list yc.*2 = (shape out).1.
Proof.
  intros [Hnum ->]%df_filtered_inv.
  set (out := mkFrame _ _). set (s := (fun r => cell r "year") <$> rows out).
  assert (∀ r, r ∈ rows out → ∃ y, cell r "year" = Int y ∧ a ≤ y ≤ b) as Hrows.
  { intros r [H _]%list_elem_of_filter. by apply year_between_spec. }
  assert (∀ v, v ∈ s → ∃ y, v = Int y ∧ a ≤ y ≤ b) as Hs.
  { intros v (r & -> & Hr)%list_elem_of_fmap. by apply Hrows. }
  destruct (unique_counts_spec s) as (Hnd & Hin & Hsum).
  assert (∀ k n, (k, n) ∈ unique_counts s → ∃ y, k = Int y ∧ a ≤ y ≤ b) as Hkeys.
  { intros k n (_ & Hn & ->)%Hin.
    destruct (filter (fun v => v = k) s) as [|v l] eqn:E; [simpl in Hn; lia|].
    assert (v ∈ filter (fun v => v = k) s) as [-> Hv]%list_elem_of_filter
      by (rewrite E; by left).
    by apply Hs. }
  assert (Forall int_key (sort_values (unique_counts s))) as Hint.
  { rewrite sort_values_perm. apply Forall_forall. intros [k n] Hkn.
    destruct (Hkeys k n Hkn) as (y & -> & _). by exists y. }
  exists (foldr insert_key [] (sort_values (unique_counts s))).
  assert (foldr insert_key [] (sort_values (unique_counts s)) ≡ₚ unique_counts s) as Hperm.
  { by rewrite sort_keys_perm, sort_values_perm. }
  split; [|split; [|split; [|split]]].
  - unfold year_counts. rewrite getitem_Ok by apply Hnum.
    cbn [mbind result_bind]. fold s. unfold value_counts. by apply sort_index_int_keys.
  - apply sorted_strict; [by rewrite Hperm | by apply sort_keys_sorted].
  - intros k n. rewrite Hperm, Hin. unfold rows_with.
    split.
    + intros (Hk & Hn & ->).
      destruct (Hkeys k (length (filter (fun v => v = k) s))) as (y & -> & _).
      { by apply Hin. }
      exists y. split; [done|]. split; [done|]. unfold s.
      by rewrite length_filter_fmap.
    + intros (y & -> & Hn & ->). split; [done|]. split; [done|].
      unfold s. by rewrite length_filter_fmap.
  - intros y n Hyn. rewrite Hperm in Hyn.
    destruct (Hkeys _ _ Hyn) as (y' & [= <-] & ?). done.
  - rewrite Hperm, Hsum. cbn [shape fst]. unfold dropna_series.
    rewrite filter_all; [by unfold s; rewrite length_fmap|].
    intros v Hv. by destruct (Hs v Hv) as (y & -> & _).
Qed.

Hypothesis sort_values_sorted :
  ∀ c, StronglySorted (fun x y => (y.2 ≤ x.2)%nat) (sort_values c).

(** X12. The top-journals table of a table with a [journal] column holds
    at most ten journals, each once, with the number of papers that name
    it; missing journals are not counted, the counts never increase down
    the table, and no journal left out is named by more papers than one
    shown. *)
Theorem top_journals_correct df :
  "journal" ∈ columns df →
  ∃ shown full,
    top_journals sort_values df = Ok shown ∧
    shown = take 10 full ∧ (length shown ≤ 10)%nat ∧
    NoDup full.*1 ∧
    (∀ k n, (k, n) ∈ full ↔
            isna k = false ∧ (1 ≤ n)%nat ∧ n = rows_with "journal" k df) ∧
    StronglySorted (fun x y => (y.2 ≤ x.2)%nat) shown ∧
    (∀ x y, x ∈ shown → y ∈ drop 10 full → (y.2 ≤ x.2)%nat).
Proof.
  intros Hc. set (s := (fun r => cell r "journal") <$> rows df).
  destruct (unique_counts_spec s) as (Hnd & Hin & _).
  exists (take 10 (value_counts sort_values s)), (value_counts sort_values s).
  unfold value_counts.
  split; [|split; [done|split; [|split; [|split; [|split]]]]].
  - unfold top_journals. by rewrite getitem_Ok.
  - rewrite length_take. lia.
  - by rewrite sort_values_perm.
  - intros k n. rewrite sort_values_perm, Hin. unfold rows_with, s.
    by rewrite length_filter_fmap.
  - apply StronglySorted_take, sort_values_sorted.
  - intros x y Hx Hy.
    pose proof (sort_values_sorted (unique_counts s)) as Hs.
    rewrite <- (take_drop 10) in Hs.
    by apply (StronglySorted_app_1_elem_of _ _ _ _ _ Hs).
Qed.

End ViewsProperties.

Lemma getitem_columns_Ok df cs :
  Forall (fun c => c ∈ columns df) cs →
  getitem_columns df cs =
  Ok {| columns := cs;
        rows := (fun r : Row => (r.1, filter (fun kv : string * value => kv.1 ∈ cs) r.2))
                <$> rows df |}.
Proof.
  intros Hcs. unfold getitem_columns.
  assert (filter (fun c => c ∉ columns df) cs = []) as ->; [|done].
  apply elem_of_nil_inv. intros c [Hc Hin]%list_elem_of_filter.
  rewrite Forall_forall in Hcs. by apply Hc, Hcs.
Qed.

(** X15. The sample shown has the four columns [title], [authors],
    [journal] and [year] and nothing else; its rows are the first twenty
    rows of the selection (all of them when there are fewer), in order,
    with their labels and their cells under the four columns unchanged. *)
Theorem sample_data_correct df :
  Forall (fun c => c ∈ columns df) ["title"; "authors"; "journal"; "year"]%string →
  ∃ sd, sample_data df = Ok sd ∧
    columns sd = ["title"; "authors"; "journal"; "year"]%string ∧
    length (rows sd) = (20 `min` length (rows df))%nat ∧
    (rows sd).*1 = take 20 (rows df).*1 ∧
    ∀ i r, rows sd !! i = Some r →
      ∃ r0, rows df !! i = Some r0 ∧ (i < 20)%nat ∧ r.1 = r0.1 ∧
        (∀ c, c ∈ ["title"; "authors"; "journal"; "year"]%string → r.2 !! c = r0.2 !! c) ∧
        (∀ c, c ∉ ["title"; "authors"; "journal"; "year"]%string → r.2 !! c = None).
Proof.
  intros Hcs. unfold sample_data. rewrite getitem_columns_Ok by done.
  cbn [mbind result_bind]. eexists. split; [done|]. cbn [head columns rows].
  split; [done|]. split; [by rewrite length_take, length_fmap|].
  split; [by rewrite fmap_take, <- list_fmap_compose|].
  intros i r Hi. apply lookup_take_Some in Hi as [Hi Hlt].
  rewrite list_lookup_fmap in Hi.
  destruct (rows df !! i) as [r0|] eqn:E; [|done]. injection Hi as <-.
  exists r0. split; [done|]. split; [done|]. split; [done|]. cbn [snd]. split.
  - intros c Hc. rewrite map_lookup_filter.
    destruct (r0.2 !! c) as [v|]; [|done]. simpl. by rewrite option_guard_True.
  - intros c Hc. rewrite map_lookup_filter.
    destruct (r0.2 !! c) as [v|]; [|done]. simpl. by rewrite option_guard_False.
Qed.

(** ** Further properties: the word stream *)

Lemma length_concat_fmap {A B} (f : A -> list B) (l : list A) :
  length (concat (f <$> l)) = sum_list ((fun x => length (f x)) <$> l).
Proof.
  induction l as [|x l IH]; [done|].
  rewrite !fmap_cons. cbn [concat]. rewrite length_app, IH. done.
Qed.

Lemma elem_of_concat {A} (x : A) (ls : list (list A)) :
  x ∈ concat ls ↔ ∃ l, x ∈ l ∧ l ∈ ls.
Proof.
  induction ls as [|l ls IH]; simpl.
  - split; [by intros ?%elem_of_nil | by intros (? & _ & ?%elem_of_nil)].
  - rewrite elem_of_app, IH. split.
    + intros [?|(l' & ? & ?)]; [exists l; split; [done | by left]|].
      exists l'. split; [done | by right].
    + intros (l' & Hx & [->|?]%elem_of_cons); [by left|]. right. by exists l'.
Qed.

Lemma tolist_str_text df field :
  text_column df field →
  tolist_str (dropna_series ((fun r => cell r field) <$> rows df)) =
  Ok (text_of <$> dropna_series ((fun r => cell r field) <$> rows df)).
Proof.
  intros [_ Htext]%text_column_alt. unfold tolist_str.
  apply traverse_Ok_fmap. intros v [Hna (r & -> & Hr)%list_elem_of_fmap]%list_elem_of_filter.
  destruct (Htext r Hr) as [E|[s E]]; rewrite E in *; done.
Qed.

(** X18. The word stream of a text column is, row after row in the order
    of the table, the lower-cased words of each text: no word runs across
    two titles and none is lost.  Every word is lower-case, non-empty and
    free of whitespace, and the stream is as long as the word counts of
    the texts add up to.  For the titles it is the split of the lower-cased
    text handed to the word cloud. *)
Theorem words_of_per_title df field :
  text_column df field →
  ∃ ws, words_of df field = Ok ws ∧
    ws = concat ((fun r => str_lower <$> str_split (text_of (cell r field))) <$> rows df) ∧
    Forall (fun t => str_lower t = t ∧ t ≠ EmptyString ∧ no_space t = true) ws ∧
    length ws = sum_list ((fun r => token_count true (text_of (cell r field))) <$> rows df) ∧
    (field = "title"%string →
     ∃ t, titles df = Ok t ∧ all_words df = Ok (str_split (str_lower t))).
Proof.
  intros Htext. exists (tokens_spec df field).
  assert (tokens_spec df field =
          concat ((fun r => str_lower <$> str_split (text_of (cell r field))) <$> rows df))
    as Hconcat.
  { unfold tokens_spec. rewrite tokens_join, <- list_fmap_compose. f_equal.
    apply list_fmap_ext. intros _ r _. simpl. apply str_split_lower. }
  split; [by apply words_of_Ok|]. split; [done|]. split; [|split].
  - apply Forall_forall. intros t Ht. split.
    + rewrite Hconcat in Ht.
      apply elem_of_concat in Ht as (l & Ht & (r & -> & _)%list_elem_of_fmap).
      apply list_elem_of_fmap in Ht as (t' & -> & _). apply str_lower_idem.
    + pose proof (split_go_clean EmptyString
        (str_lower (str_join " " ((fun r => text_of (cell r field)) <$> rows df))) eq_refl) as H.
      rewrite Forall_forall in H. by apply H.
  - rewrite Hconcat, length_concat_fmap. f_equal.
    apply list_fmap_ext. intros _ r _. by rewrite length_fmap, str_split_length.
  - intros ->. eexists. unfold titles, all_words, words_of.
    destruct Htext as [Hc Ht]. rewrite getitem_Ok by done. cbn [mbind result_bind].
    rewrite tolist_str_text by done. done.
Qed.

(** ** Further properties: the loader and the views of a loaded table *)

Section LoadedTables.

Variable read_table : string -> io_error + (list string * list (list string)).
Variable parse_datetime : Series -> value -> option Timestamp.
Variable dates_error : Series -> option exn.
Variable text_dtype : Series -> bool.

Local Abbreviation load_data := (load_data read_table parse_datetime dates_error text_dtype).
Local Abbreviation text_abstracts := (text_abstracts text_dtype).
Local Abbreviation parsed := (parsed parse_datetime).
Local Abbreviation derive_row := (derive_row parse_datetime).
Local Abbreviation cleaned := (cleaned parse_datetime).

Lemma essential_derive_row col r :
  essential (derive_row col r) = usable_row parse_datetime col r.
Proof.
  unfold essential, usable_row.
  rewrite derive_row_date, derive_row_other; [done|]. not_in_literals.
Qed.

Variable sort_values : list (value * nat) -> list (value * nat).

Lemma count_label (l : list Row) i :
  NoDup l.*1 → (∃ r, r ∈ l ∧ r.1 = i) →
  length (filter (fun r : Row => r.1 = i) l) = 1%nat.
Proof.
  induction l as [|x l IH]; intros Hnd (r & Hr & Hi); [by apply elem_of_nil in Hr|].
  rewrite fmap_cons in Hnd. apply NoDup_cons in Hnd as [Hx Hnd].
  rewrite filter_cons. destruct (decide (x.1 = i)) as [Hxi|Hxi].
  - simpl. f_equal. apply length_zero_iff_nil, elem_of_nil_inv.
    intros y [Hy Hyl]%list_elem_of_filter. apply Hx. rewrite Hxi, <- Hy.
    by apply list_elem_of_fmap_2.
  - apply IH; [done|]. exists r. split; [|done].
    apply elem_of_cons in Hr as [->|Hr]; done.
Qed.

Lemma loaded_columns path header lines df :
  read_table path = inr (header, lines) → load_data path = Ok df →
  df = cleaned (frame_of header lines) ∧
  "publish_time" ∈ header ∧ "abstract" ∈ header ∧ "title" ∈ header.
Proof.
  intros Hread (header' & lines' & Hread' & ? & ? & ? & ->)%load_data_Ok.
  rewrite Hread in Hread'. by injection Hread' as <- <-.
Qed.

(** X1. No usable line is lost: every line of the file that has a title
    and a date that parses is in the table, as its derived row and under
    its line number, exactly once; and the table has as many rows as the
    file has such lines. *)
Theorem load_data_keeps_usable_lines path header lines df :
  read_table path = inr (header, lines) →
  load_data path = Ok df →
  (∀ i fields,
     lines !! i = Some fields →
     usable_row parse_datetime (date_column (frame_of header lines))
                (row_of header i fields) = true →
     derive_row (date_column (frame_of header lines)) (row_of header i fields) ∈ rows df ∧
     length (filter (fun r : Row => r.1 = i) (rows df)) = 1%nat) ∧
  length (rows df) =
  length (filter (fun r => usable_row parse_datetime
                             (date_column (frame_of header lines)) r = true)
                 (rows (frame_of header lines))).
Proof.
  intros Hread Hload.
  destruct (loaded_columns _ _ _ _ Hread Hload) as (-> & _).
  set (col := date_column (frame_of header lines)). split.
  - intros i fields Hi Huse.
    assert (derive_row col (row_of header i fields) ∈ rows (cleaned (frame_of header lines)))
      as Hin.
    { apply elem_of_cleaned. exists fields. split; [done|]. split; [done|].
      by rewrite essential_derive_row. }
    split; [done|]. apply count_label.
    + eapply sublist_NoDup; [apply NoDup_seq | apply labels_cleaned].
    + by eexists.
  - unfold cleaned. cbn [rows]. rewrite length_filter_fmap. f_equal.
    apply list_filter_iff. intros r. by rewrite essential_derive_row.
Qed.

(** X2. On a file that can be read but whose header lacks a column the
    loader reads, [load_data] raises [KeyError] for the first one missing
    in the order of its lines, [publish_time] (line 20), [abstract] (line
    23), [title] (line 25), provided the lines before raise nothing.  A
    missing title is not reached when the abstracts were read as numbers
    or booleans: line 23 raises [AttributeError] first. *)
Theorem load_data_missing_column path header lines :
  read_table path = inr (header, lines) →
  ("publish_time" ∉ header →
   load_data path = Raise (KeyError ["publish_time"%string])) ∧
  ("publish_time" ∈ header →
   dates_error (date_column (frame_of header lines)) = None →
   ("abstract" ∉ header →
    load_data path = Raise (KeyError ["abstract"%string])) ∧
   ("abstract" ∈ header →
    (text_abstracts (frame_of header lines) = true → "title" ∉ header →
     load_data path = Raise (KeyError ["title"%string])) ∧
    (text_abstracts (frame_of header lines) = false →
     load_data path = Raise AttributeError))).
Proof.
  intros Hread. rewrite load_data_eq, Hread. split.
  - intros Hp. by rewrite decide_False.
  - intros Hp Hdates. rewrite decide_True, Hdates by done. split.
    + intros Ha. by rewrite decide_False.
    + intros Ha. rewrite decide_True by done. split.
      * intros -> Ht. by rewrite decide_False.
      * by intros ->.
Qed.

(** X3. A line whose title is one of the words the reader takes for a
    missing value (NA, null, None, NaN, n/a, ...) is dropped like a line
    without a title, although its title is not empty. *)
Theorem load_data_drops_na_titles path header lines df i fields s :
  read_table path = inr (header, lines) →
  load_data path = Ok df →
  lines !! i = Some fields →
  field_text header fields "title" = Some s →
  s ∈ STR_NA_VALUES →
  i ∉ (rows df).*1.
Proof.
  intros Hread Hload Hi Hf Hs (r & -> & Hr)%list_elem_of_fmap.
  destruct (loaded_columns _ _ _ _ Hread Hload) as (-> & _).
  destruct (cleaned_title _ _ _ _ Hr) as (s' & _ & Hs' & Hf').
  rewrite Hi in Hf'. simpl in Hf'. rewrite Hf in Hf'. by injection Hf' as <-.
Qed.

Lemma loaded_cells_present header lines r c :
  r ∈ rows (cleaned (frame_of header lines)) →
  c ∈ ["title"; "publish_time"; "year"; "abstract_word_count"]%string →
  isna (cell r c) = false.
Proof.
  intros Hr Hc.
  destruct (cleaned_title _ _ _ _ Hr) as (s & Ht & _).
  destruct (cleaned_year _ _ _ _ Hr) as (t & Hd & Hy & _).
  apply elem_of_cleaned in Hr as (fields & _ & Hr & _).
  repeat (apply elem_of_cons in Hc as [->|Hc]).
  - by rewrite Ht.
  - by rewrite Hd.
  - by rewrite Hy.
  - rewrite Hr. by rewrite derive_row_word_count.
  - by apply elem_of_nil in Hc.
Qed.

(** X4. The table of missing values per column has one line per column of
    the loaded table, never more missing values than rows, and shows no
    missing value under [title], [publish_time], [year] and
    [abstract_word_count]. *)
Theorem isnull_sum_loaded path df :
  load_data path = Ok df →
  (isnull_sum df).*1 = columns df ∧
  (∀ c n, (c, n) ∈ isnull_sum df → (n ≤ (shape df).1)%nat) ∧
  (∀ c, c ∈ ["title"; "publish_time"; "year"; "abstract_word_count"]%string →
        (c, 0%nat) ∈ isnull_sum df).
Proof.
  intros Hload. unfold isnull_sum. split; [|split].
  - rewrite <- list_fmap_compose. apply list_fmap_id.
  - intros c n (c' & [= -> ->] & _)%list_elem_of_fmap. apply length_filter.
  - intros c Hc.
    pose proof Hload as (header & lines & _ & Hp & _ & Ht & ->)%load_data_Ok.
    apply list_elem_of_fmap. exists c. split.
    + f_equal. symmetry. apply length_zero_iff_nil, elem_of_nil_inv.
      intros r [Hna Hr]%list_elem_of_filter.
      by rewrite (loaded_cells_present header lines r c) in Hna.
    + unfold cleaned. cbn [columns frame_of]. rewrite !elem_of_add_column.
      repeat (apply elem_of_cons in Hc as [->|Hc]); auto.
      by apply elem_of_nil in Hc.
Qed.

Lemma loaded_numeric_year header lines :
  numeric_column (cleaned (frame_of header lines)) "year" ∧
  ∀ r, r ∈ rows (cleaned (frame_of header lines)) → ∃ y, cell r "year" = Int y.
Proof.
  assert (∀ r, r ∈ rows (cleaned (frame_of header lines)) → ∃ y, cell r "year" = Int y) as H.
  { intros r (t & _ & -> & _)%cleaned_year. eauto. }
  split; [|done]. apply numeric_column_alt. split.
  - unfold cleaned. cbn [columns]. rewrite !elem_of_add_column. auto.
  - intros r Hr. right. by apply H.
Qed.

(** X9. When the loaded table has no row (a file with a header only, or
    with no usable line), computing the bounds of the slider raises
    [ValueError]: the minimum of no years is missing, and [int] does not
    take it. *)
Theorem slider_bounds_empty_table path df :
  load_data path = Ok df → rows df = [] → slider_bounds df = inl ValueError.
Proof.
  intros (header & lines & _ & _ & _ & _ & ->)%load_data_Ok Hrows.
  rewrite slider_bounds_years by apply loaded_numeric_year.
  unfold years. by rewrite Hrows.
Qed.

(** X10. On a loaded table with at least one row the bounds of the slider
    are the least and the greatest year of the table: both are years of
    rows, every row lies between them, and selecting the whole span gives
    the table back unchanged. *)
Theorem slider_bounds_span path df :
  load_data path = Ok df → rows df ≠ [] →
  ∃ lo hi,
    slider_bounds df = inr (lo, hi) ∧ lo ≤ hi ∧
    (∃ r, r ∈ rows df ∧ cell r "year" = Int lo) ∧
    (∃ r, r ∈ rows df ∧ cell r "year" = Int hi) ∧
    (∀ r, r ∈ rows df → ∃ y, cell r "year" = Int y ∧ lo ≤ y ≤ hi) ∧
    df_filtered df (lo, hi) = Ok df.
Proof.
  intros (header & lines & _ & _ & _ & _ & ->)%load_data_Ok Hrows.
  set (df := cleaned (frame_of header lines)) in *.
  destruct (loaded_numeric_year header lines) as [Hnum Hyear]. fold df in Hnum, Hyear.
  rewrite slider_bounds_years by done.
  destruct (years df) as [|z zs] eqn:Hyears.
  { destruct (rows df) as [|r l] eqn:E; [done|].
    destruct (Hyear r) as [y Hy]; [by left|].
    assert (y ∈ years df) as Hin.
    { apply elem_of_years. exists r. split; [rewrite E; by left | done]. }
    rewrite Hyears in Hin. by apply elem_of_nil in Hin. }
  destruct (foldr_min_spec z zs) as [Hmin_in Hmin].
  destruct (foldr_max_spec z zs) as [Hmax_in Hmax].
  set (lo := foldr Z.min z zs) in *. set (hi := foldr Z.max z zs) in *.
  rewrite <- Hyears in Hmin_in, Hmax_in, Hmin, Hmax.
  exists lo, hi. split; [done|].
  assert (∀ r, r ∈ rows df → ∃ y, cell r "year" = Int y ∧ lo ≤ y ≤ hi) as Hall.
  { intros r Hr. destruct (Hyear r Hr) as [y Hy]. exists y. split; [done|].
    assert (y ∈ years df) as Hin by (apply elem_of_years; eauto).
    specialize (Hmin y Hin). specialize (Hmax y Hin). lia. }
  apply elem_of_years in Hmin_in as (rlo & Hrlo & Hlo).
  apply elem_of_years in Hmax_in as (rhi & Hrhi & Hhi).
  split; [|split; [eauto|split; [eauto|split; [done|]]]].
  - destruct (Hall rlo Hrlo) as (y & Hy & ?). rewrite Hlo in Hy. injection Hy as <-. lia.
  - rewrite df_filtered_Ok by done. f_equal.
    rewrite filter_all; [by destruct df|].
    intros r Hr. apply year_between_spec. by apply Hall.
Qed.

Lemma selection_columns path header lines df year_range out :
  read_table path = inr (header, lines) → load_data path = Ok df →
  df_filtered df year_range = Ok out →
  ∀ c, c ≠ "year"%string → c ≠ "abstract_word_count"%string →
       c ∈ columns out ↔ c ∈ header.
Proof.
  intros Hread Hload Hsel c Hy Hw. destruct year_range as [a b].
  apply df_filtered_inv in Hsel as [_ ->]. cbn [columns].
  destruct (loaded_columns _ _ _ _ Hread Hload) as (-> & _).
  unfold cleaned. cbn [columns frame_of]. rewrite !elem_of_add_column. tauto.
Qed.

(** X13. Two views read columns the loader does not ask for: on a table
    loaded from a file without a [journal] column the top-journals view
    raises [KeyError], and the sample view raises [KeyError] naming those
    of [authors] and [journal] that the file lacks. *)
Theorem views_need_their_columns path header lines df year_range out :
  read_table path = inr (header, lines) →
  load_data path = Ok df →
  df_filtered df year_range = Ok out →
  ("journal" ∉ header →
   top_journals sort_values out = Raise (KeyError ["journal"%string])) ∧
  (filter (fun c => c ∉ header) ["authors"; "journal"]%string ≠ [] →
   sample_data out =
   Raise (KeyError (filter (fun c => c ∉ header) ["authors"; "journal"]%string))).
Proof.
  intros Hread Hload Hsel.
  pose proof (selection_columns _ _ _ _ _ _ Hread Hload Hsel) as Hcols.
  split.
  - intros Hj. unfold top_journals. rewrite getitem_KeyError; [done|].
    by rewrite Hcols.
  - intros Hmiss. unfold sample_data, getitem_columns.
    assert (filter (fun c => c ∉ columns out) ["title"; "authors"; "journal"; "year"]%string
            = filter (fun c => c ∉ header) ["authors"; "journal"]%string) as ->.
    { destruct (loaded_columns _ _ _ _ Hread Hload) as (_ & _ & _ & Ht).
      assert ("year" ∈ columns out) as Hy.
      { destruct year_range as [a b].
        apply df_filtered_inv in Hsel as [[? _] ->]. done. }
      rewrite filter_cons_False by (rewrite Hcols by done; tauto).
      rewrite !filter_cons, !filter_nil.
      rewrite (decide_False (P := "year" ∉ columns out)) by tauto.
      destruct (decide ("authors" ∈ header)) as [Ha|Ha];
        destruct (decide ("journal" ∈ header)) as [Hj|Hj].
      - rewrite !decide_False; [done| | | |]; rewrite ?Hcols by done; tauto.
      - rewrite (decide_False (P := "authors" ∉ columns out)),
                (decide_True (P := "journal" ∉ columns out)),
                (decide_False (P := "authors" ∉ header)),
                (decide_True (P := "journal" ∉ header));
          [done|..]; rewrite ?Hcols by done; tauto.
      - rewrite (decide_True (P := "authors" ∉ columns out)),
                (decide_False (P := "journal" ∉ columns out)),
                (decide_True (P := "authors" ∉ header)),
                (decide_False (P := "journal" ∉ header));
          [done|..]; rewrite ?Hcols by done; tauto.
      - rewrite !decide_True; [done| | | |]; rewrite ?Hcols by done; tauto. }
    by destruct (filter (fun c => c ∉ header) ["authors"; "journal"]%string).
Qed.

(** X14. The source view never raises for want of its column: on a table
    loaded from a file without a [source_x] column it gives the notice,
    and with the column it gives at most ten counts. *)
Theorem source_counts_guard path header lines df year_range out :
  read_table path = inr (header, lines) →
  load_data path = Ok df →
  df_filtered df year_range = Ok out →
  ("source_x" ∉ header →
   source_counts sort_values out =
   Ok (inl "Column 'source_x' not found in dataset."%string)) ∧
  ("source_x" ∈ header →
   ∃ counts, source_counts sort_values out = Ok (inr counts) ∧
             (length counts ≤ 10)%nat).
Proof.
  intros Hread Hload Hsel.
  pose proof (selection_columns _ _ _ _ _ _ Hread Hload Hsel "source_x") as Hcols.
  unfold source_counts. split; intros Hs.
  - rewrite decide_False; [done|]. rewrite Hcols by done. done.
  - rewrite decide_True by (by rewrite Hcols).
    rewrite getitem_Ok by (by rewrite Hcols). cbn [mbind result_bind].
    eexists. split; [done|]. rewrite length_take. lia.
Qed.

End LoadedTables.

(** ** The further properties on the sample files *)

Lemma insert_count_perm x l : insert_count x l ≡ₚ x :: l.
Proof.
  induction l as [|y l IH]; simpl; [done|].
  destruct (x.2 <? y.2)%nat; [|done]. rewrite IH. apply perm_swap.
Qed.

Lemma sort_counts_perm l : sort_counts l ≡ₚ l.
Proof.
  induction l as [|x l IH]; simpl; [done|]. by rewrite insert_count_perm, IH.
Qed.

Lemma insert_count_sorted x l :
  StronglySorted (fun x y : value * nat => (y.2 ≤ x.2)%nat) l →
  StronglySorted (fun x y : value * nat => (y.2 ≤ x.2)%nat) (insert_count x l).
Proof.
  induction 1 as [|y l Hl IH Hy]; simpl.
  - repeat constructor.
  - destruct (x.2 <? y.2)%nat eqn:E.
    + apply Nat.ltb_lt in E. constructor; [done|].
      rewrite insert_count_perm. constructor; [lia | done].
    + apply Nat.ltb_ge in E. constructor; [by constructor|].
      constructor; [done|]. rewrite Forall_forall in *.
      intros z Hz. specialize (Hy z Hz). simpl in Hy. lia.
Qed.

Lemma sort_counts_sorted l :
  StronglySorted (fun x y : value * nat => (y.2 ≤ x.2)%nat) (sort_counts l).
Proof.
  induction l as [|x l IH]; simpl; [constructor|]. by apply insert_count_sorted.
Qed.

Lemma load_data_keeps_usable_lines_witness :
  sample_files sample_path = inr (sample_header, sample_lines) ∧
  load_data sample_files iso_date mixed_offsets sample_dtype sample_path = Ok sample_table ∧
  length (filter (fun r : Row => r.1 = 1%nat) (rows sample_table)) = 1%nat ∧
  length (rows sample_table) = 3%nat.
Proof.
  assert (sample_files sample_path = inr (sample_header, sample_lines)) as Hread
    by reflexivity.
  assert (load_data sample_files iso_date mixed_offsets sample_dtype sample_path = Ok sample_table) as Hload
    by (vm_compute; reflexivity).
  destruct (load_data_keeps_usable_lines sample_files iso_date mixed_offsets sample_dtype sample_path
              sample_header sample_lines sample_table Hread Hload) as [Hin Hlen].
  split; [done|]. split; [done|]. split.
  - eapply (Hin 1%nat); [reflexivity | vm_compute; reflexivity].
  - rewrite Hlen. vm_compute. reflexivity.
Defined.

Lemma load_data_missing_column_witness :
  sample_files "no_abstract.csv" =
    inr (["title"; "publish_time"], [["Covid study"; "2020-01-01"]])%string ∧
  load_data sample_files iso_date mixed_offsets sample_dtype "no_abstract.csv" =
    Raise (KeyError ["abstract"%string]) ∧
  more_files "numeric_no_title.csv" =
    inr (["abstract"; "publish_time"], [["12345"; "2020-01-01"]])%string ∧
  load_data more_files iso_date mixed_offsets sample_dtype "numeric_no_title.csv" =
    Raise AttributeError.
Proof.
  split; [reflexivity|]. split; [|split; [reflexivity|]].
  - eapply (load_data_missing_column sample_files iso_date mixed_offsets sample_dtype);
      [reflexivity | by_evaluation | vm_compute; reflexivity | by_evaluation].
  - eapply (load_data_missing_column more_files iso_date mixed_offsets sample_dtype);
      [reflexivity | by_evaluation | vm_compute; reflexivity | by_evaluation
      | vm_compute; reflexivity].
Defined.

Lemma load_data_drops_na_titles_witness :
  more_files "na_title.csv" = inr (short_header, na_title_lines) ∧
  load_data more_files iso_date mixed_offsets sample_dtype "na_title.csv" = Ok na_title_table ∧
  (0%nat ∉ (rows na_title_table).*1) ∧ (rows na_title_table).*1 = [1; 3]%nat.
Proof.
  split; [reflexivity|]. split; [vm_compute; reflexivity|]. split; [|vm_compute; reflexivity].
  eapply (load_data_drops_na_titles more_files iso_date mixed_offsets sample_dtype "na_title.csv"
            short_header na_title_lines na_title_table 0%nat _ "None").
  - reflexivity.
  - vm_compute. reflexivity.
  - reflexivity.
  - reflexivity.
  - by_evaluation.
Defined.

Lemma isnull_sum_loaded_witness :
  load_data sample_files iso_date mixed_offsets sample_dtype sample_path = Ok sample_table ∧
  ("title"%string, 0%nat) ∈ isnull_sum sample_table ∧
  isnull_sum sample_table =
    [("title", 0); ("authors", 0); ("journal", 1); ("abstract", 1);
     ("publish_time", 0); ("year", 0); ("abstract_word_count", 0)]%string%nat.
Proof.
  assert (load_data sample_files iso_date mixed_offsets sample_dtype sample_path = Ok sample_table) as Hload
    by (vm_compute; reflexivity).
  destruct (isnull_sum_loaded sample_files iso_date mixed_offsets sample_dtype sample_path sample_table Hload)
    as (_ & _ & Hzero).
  split; [done|]. split; [|vm_compute; reflexivity].
  apply Hzero. apply list_elem_of_here.
Defined.

Lemma df_filtered_compose_witness :
  numeric_column sample_table "year" ∧
  ∃ d1 d2, df_filtered sample_table (2019, 2020) = Ok d1 ∧
           df_filtered d1 (2020, 2021) = Ok d2 ∧
           df_filtered sample_table (2020, 2020) = Ok d2 ∧
           (rows d2).*1 = [1]%nat.
Proof.
  assert (numeric_column sample_table "year") as Hnum by by_evaluation.
  destruct (df_filtered_compose sample_table 2019 2020 2020 2021 Hnum)
    as (d1 & d2 & d3 & H1 & H2 & H12 & _).
  split; [done|]. exists d1, d2. split; [done|]. split; [done|]. split; [done|].
  change (Z.max 2019 2020) with 2020 in H12. change (Z.min 2020 2021) with 2020 in H12.
  vm_compute in H12. by injection H12 as <-.
Defined.

Lemma df_filtered_monotone_witness :
  numeric_column sample_table "year" ∧ 2019 ≤ 2020 ∧ 2020 ≤ 2021 ∧
  ∃ narrow wide, df_filtered sample_table (2020, 2020) = Ok narrow ∧
                 df_filtered sample_table (2019, 2021) = Ok wide ∧
                 rows narrow `sublist_of` rows wide.
Proof.
  assert (numeric_column sample_table "year") as Hnum by by_evaluation.
  split; [done|]. split; [lia|]. split; [lia|].
  apply (df_filtered_monotone sample_table 2020 2020 2019 2021 Hnum); lia.
Defined.

Lemma df_filtered_inverted_range_witness :
  numeric_column sample_table "year" ∧ 2019 < 2021 ∧
  ∃ out, df_filtered sample_table (2021, 2019) = Ok out ∧ rows out = [] ∧
         columns out = columns sample_table.
Proof.
  assert (numeric_column sample_table "year") as Hnum by by_evaluation.
  split; [done|]. split; [lia|].
  apply (df_filtered_inverted_range sample_table 2021 2019 Hnum). lia.
Defined.

Lemma slider_bounds_empty_table_witness :
  load_data sample_files iso_date mixed_offsets sample_dtype "header_only.csv" = Ok header_only_table ∧
  rows header_only_table = [] ∧
  slider_bounds header_only_table = inl ValueError.
Proof.
  assert (load_data sample_files iso_date mixed_offsets sample_dtype "header_only.csv" = Ok header_only_table)
    as Hload by (vm_compute; reflexivity).
  split; [done|]. split; [reflexivity|].
  by apply (slider_bounds_empty_table sample_files iso_date mixed_offsets sample_dtype "header_only.csv").
Defined.

Lemma slider_bounds_span_witness :
  load_data sample_files iso_date mixed_offsets sample_dtype sample_path = Ok sample_table ∧
  rows sample_table ≠ [] ∧
  slider_bounds sample_table = inr (2019, 2021) ∧
  df_filtered sample_table (2019, 2021) = Ok sample_table.
Proof.
  assert (load_data sample_files iso_date mixed_offsets sample_dtype sample_path = Ok sample_table) as Hload
    by (vm_compute; reflexivity).
  assert (rows sample_table ≠ []) as Hrows by (vm_compute; discriminate).
  destruct (slider_bounds_span sample_files iso_date mixed_offsets sample_dtype sample_path sample_table Hload Hrows)
    as (lo & hi & Hb & _ & _ & _ & _ & Hsel).
  split; [done|]. split; [done|].
  assert (inr (lo, hi) = (inr (2019, 2021) : exn + Z * Z)) as [= -> ->].
  { rewrite <- Hb. vm_compute. reflexivity. }
  done.
Defined.

Lemma year_counts_correct_witness :
  (∀ c, sort_counts c ≡ₚ c) ∧
  ∃ out yc, df_filtered sample_table (2020, 2021) = Ok out ∧
            year_counts sort_counts out = Ok yc ∧
            yc = [(Int 2020, 1); (Int 2021, 1)]%nat ∧
            sum_list yc.*2 = (shape out).1.
Proof.
  split; [apply sort_counts_perm|]. exists sample_selection.
  assert (df_filtered sample_table (2020, 2021) = Ok sample_selection) as Hsel
    by (vm_compute; reflexivity).
  destruct (year_counts_correct sort_counts sort_counts_perm sample_table 2020 2021
              sample_selection Hsel) as (yc & Hyc & _ & _ & _ & Hsum).
  exists yc. split; [done|]. split; [done|]. split; [|done].
  vm_compute in Hyc. by injection Hyc as <-.
Defined.

Lemma top_journals_correct_witness :
  (∀ c, sort_counts c ≡ₚ c) ∧
  (∀ c, StronglySorted (fun x y : value * nat => (y.2 ≤ x.2)%nat) (sort_counts c)) ∧
  "journal"%string ∈ columns sample_table ∧
  ∃ shown, top_journals sort_counts sample_table = Ok shown ∧
           shown = [(Str "Lancet", 1); (Str "BMJ", 1)]%nat ∧
           (length shown ≤ 10)%nat.
Proof.
  assert ("journal"%string ∈ columns sample_table) as Hc by by_evaluation.
  destruct (top_journals_correct sort_counts sort_counts_perm sort_counts_sorted
              sample_table Hc) as (shown & full & Htop & _ & Hlen & _).
  split; [apply sort_counts_perm|]. split; [apply sort_counts_sorted|]. split; [done|].
  exists shown. split; [done|]. split; [|done].
  vm_compute in Htop. by injection Htop as <-.
Defined.

Lemma views_need_their_columns_witness :
  more_files "no_journal.csv" = inr (short_header, no_journal_lines) ∧
  load_data more_files iso_date mixed_offsets sample_dtype "no_journal.csv" = Ok no_journal_table ∧
  df_filtered no_journal_table (2020, 2021) = Ok no_journal_table ∧
  top_journals sort_counts no_journal_table = Raise (KeyError ["journal"%string]) ∧
  sample_data no_journal_table = Raise (KeyError ["authors"; "journal"]%string).
Proof.
  assert (more_files "no_journal.csv" = inr (short_header, no_journal_lines)) as Hread
    by reflexivity.
  assert (load_data more_files iso_date mixed_offsets sample_dtype "no_journal.csv" = Ok no_journal_table) as Hload
    by (vm_compute; reflexivity).
  assert (df_filtered no_journal_table (2020, 2021) = Ok no_journal_table) as Hsel
    by (vm_compute; reflexivity).
  destruct (views_need_their_columns more_files iso_date mixed_offsets sample_dtype sort_counts "no_journal.csv"
              short_header no_journal_lines no_journal_table (2020, 2021)
              no_journal_table Hread Hload Hsel) as [Hj Hs].
  split; [done|]. split; [done|]. split; [done|]. split.
  - apply Hj. by_evaluation.
  - apply Hs. vm_compute. discriminate.
Defined.

Lemma source_counts_guard_witness :
  sample_files sample_path = inr (sample_header, sample_lines) ∧
  load_data sample_files iso_date mixed_offsets sample_dtype sample_path = Ok sample_table ∧
  df_filtered sample_table (2020, 2021) = Ok sample_selection ∧
  source_counts sort_counts sample_selection =
    Ok (inl "Column 'source_x' not found in dataset."%string).
Proof.
  assert (sample_files sample_path = inr (sample_header, sample_lines)) as Hread
    by reflexivity.
  assert (load_data sample_files iso_date mixed_offsets sample_dtype sample_path = Ok sample_table) as Hload
    by (vm_compute; reflexivity).
  assert (df_filtered sample_table (2020, 2021) = Ok sample_selection) as Hsel
    by (vm_compute; reflexivity).
  destruct (source_counts_guard sample_files iso_date mixed_offsets sample_dtype sort_counts sample_path
              sample_header sample_lines sample_table (2020, 2021)
              sample_selection Hread Hload Hsel) as [Hno _].
  split; [done|]. split; [done|]. split; [done|]. apply Hno. by_evaluation.
Defined.

Lemma sample_data_correct_witness :
  Forall (fun c => c ∈ columns sample_table) ["title"; "authors"; "journal"; "year"]%string ∧
  ∃ sd, sample_data sample_table = Ok sd ∧
        columns sd = ["title"; "authors"; "journal"; "year"]%string ∧
        (rows sd).*1 = [0; 1; 4]%nat.
Proof.
  assert (Forall (fun c => c ∈ columns sample_table)
                 ["title"; "authors"; "journal"; "year"]%string) as Hc by by_evaluation.
  destruct (sample_data_correct sample_table Hc) as (sd & Hsd & Hcols & _ & Hlab & _).
  split; [done|]. exists sd. split; [done|]. split; [done|].
  rewrite Hlab. vm_compute. reflexivity.
Defined.

Lemma str_split_tokens_clean_witness :
  "study"%string ∈ str_split " Covid  study " ∧
  "study"%string ≠ EmptyString ∧ no_space "study" = true.
Proof.
  assert ("study"%string ∈ str_split " Covid  study ") as Hin by by_evaluation.
  split; [done|]. exact (str_split_tokens_clean " Covid  study " "study" Hin).
Defined.

Lemma str_split_join_roundtrip_witness :
  Forall (fun w => w ≠ EmptyString ∧ no_space w = true) ["covid"; "vaccine"; "trial"]%string ∧
  str_split (str_join " " ["covid"; "vaccine"; "trial"]) = ["covid"; "vaccine"; "trial"]%string.
Proof.
  assert (Forall (fun w => w ≠ EmptyString ∧ no_space w = true)
                 ["covid"; "vaccine"; "trial"]%string) as H.
  { repeat constructor; discriminate. }
  split; [done|]. exact (str_split_join_roundtrip _ H).
Defined.

Lemma words_of_per_title_witness :
  text_column sample_table "title" ∧
  ∃ ws, words_of sample_table "title" = Ok ws ∧
        ws = ["covid"; "study"; "covid"; "vaccine"; "vaccine"; "trial"]%string ∧
        Forall (fun t => str_lower t = t ∧ t ≠ EmptyString ∧ no_space t = true) ws.
Proof.
  assert (text_column sample_table "title") as Htext by by_evaluation.
  destruct (words_of_per_title sample_table "title" Htext) as (ws & Hws & Heq & Hall & _).
  split; [done|]. exists ws. split; [done|]. split; [|done].
  rewrite Heq. vm_compute. reflexivity.
Defined.
